(** * cndev: the XML helpers and the NETCONF configuration fetcher

    A shallow embedding of the XML part of [cndev.py] (the tree printer
    [xml_to_tree], the ancestor walk [get_path_to_root], the serializer
    wrapper [get_xml_str], the filter loader [load_xml_filter] and the
    fetcher [get_sros_elem_config]) together with the properties proved
    about it.  The other helpers of the module ([load_json_data],
    [apply_template], [load_j2_env], [enable_logging] and the decorator
    [runtimeit_logger]) follow, over the interface [Toolkit].

    Conventions.
    - A Python [str] is a [string]; its characters are the code points
      below 256.
    - Code that prints, calls the device session or raises runs in the
      monad [M], whose state [World] holds the standard output, the file
      system and the log of [get_config] requests sent so far.
    - What the module imports and does not define ([os.path.abspath],
      lxml's parser and serializer, [pprint]) is the interface [Platform]. *)

From Stdlib Require Import String Ascii List ZArith Lia Bool Arith DecimalString.
Import ListNotations.

Local Open Scope string_scope.

(* ================================================================== *)
(** ** Python strings *)

Module PyStr.

(** The line feed and the double quote, which string literals of this
    file do not spell out. *)
Definition LF : ascii := "010"%char.
Definition DQ : ascii := "034"%char.

Definition chr (c : ascii) : string := String c "".

(** [s * n] for an integer [n]: the empty string when [n <= 0]. *)
Fixpoint repeat_nat (s : string) (n : nat) : string :=
  match n with
  | O => ""
  | S n' => s ++ repeat_nat s n'
  end.

Definition mul (s : string) (n : Z) : string := repeat_nat s (Z.to_nat n).

(** [str.isspace] on one character: U+0009..U+000D, U+001C..U+0020,
    U+0085 and U+00A0. *)
Definition isspace (c : ascii) : bool :=
  let n := nat_of_ascii c in
  (((9 <=? n) && (n <=? 13)) || ((28 <=? n) && (n <=? 32))
   || (n =? 133) || (n =? 160))%nat.

Fixpoint lstrip (s : string) : string :=
  match s with
  | "" => ""
  | String c s' => if isspace c then lstrip s' else s
  end.

Fixpoint rstrip (s : string) : string :=
  match s with
  | "" => ""
  | String c s' =>
      match rstrip s' with
      | "" => if isspace c then "" else String c ""
      | r => String c r
      end
  end.

(** [s.strip()] *)
Definition strip (s : string) : string := rstrip (lstrip s).

Fixpoint starts_with (p s : string) : bool :=
  match p, s with
  | "", _ => true
  | String a p', String b s' => Ascii.eqb a b && starts_with p' s'
  | String _ _, "" => false
  end.

(** [p in s] *)
Fixpoint contains (p s : string) : bool :=
  starts_with p s ||
  match s with
  | "" => false
  | String _ s' => contains p s'
  end.

(** [c in s] for a single character. *)
Fixpoint has_char (c : ascii) (s : string) : bool :=
  match s with
  | "" => false
  | String d s' => Ascii.eqb c d || has_char c s'
  end.

(** The number of blanks (U+0020) a string starts with. *)
Fixpoint leading_blanks (s : string) : nat :=
  match s with
  | String " " s' => S (leading_blanks s')
  | _ => O
  end.

(** The first [n] characters and what follows them. *)
Fixpoint take (n : nat) (s : string) : string :=
  match n, s with
  | S n', String c s' => String c (take n' s')
  | _, _ => ""
  end.

End PyStr.

(* ================================================================== *)
(** ** The fragment of [re] the module uses

    The one pattern of the module is an escaped opening brace, a greedy
    dot-star, an escaped closing brace and a capture group holding a
    second greedy dot-star; it is used as [re.sub(pattern, r'\1', tag)].
    So: literals, the greedy dot-star (the dot is any character but the
    line feed, no flag being given), concatenation and one capture
    group, matched by backtracking as [re] does; [re.sub] replaces the
    leftmost non-overlapping matches. *)

Module Re.

Inductive regex : Type :=
| Lit (c : ascii)
| AnyStar
| Group (r : regex)
| Cat (r1 r2 : regex).

Definition is_dot (c : ascii) : bool := negb (Ascii.eqb c PyStr.LF).

(** Greedy [.*] followed by the continuation [k]: the longest run of
    non-line-feed characters after which [k] succeeds. *)
Fixpoint dot_star {R : Type} (s : string) (k : string -> option R) : option R :=
  match s with
  | "" => k ""
  | String c s' =>
      if is_dot c then
        match dot_star s' k with
        | Some r => Some r
        | None => k s
        end
      else k s
  end.

(** What a match that started at [s] and stopped at its suffix [s']
    has consumed. *)
Definition consumed (s s' : string) : string :=
  PyStr.take (String.length s - String.length s') s.

(** [rmatch r s cap k]: match [r] at the start of [s], group 1 being
    [cap] so far, and hand the rest of the input to [k]. *)
Fixpoint rmatch {R : Type} (r : regex) (s : string) (cap : option string)
    (k : string -> option string -> option R) : option R :=
  match r with
  | Lit c =>
      match s with
      | String d s' => if Ascii.eqb c d then k s' cap else None
      | "" => None
      end
  | AnyStar => dot_star s (fun s' => k s' cap)
  | Group r1 => rmatch r1 s cap (fun s' _ => k s' (Some (consumed s s')))
  | Cat r1 r2 => rmatch r1 s cap (fun s' cap' => rmatch r2 s' cap' k)
  end.

(** A match at the very start of [s]: the unread input and group 1. *)
Definition match_here (r : regex) (s : string) : option (string * option string) :=
  rmatch r s None (fun s' cap => Some (s', cap)).

(** The template [\1]; a group that did not take part is empty. *)
Definition expand1 (cap : option string) : string :=
  match cap with
  | Some g => g
  | None => ""
  end.

(** [re.sub(r, r'\1', s)], scanning from the left.  After a non-empty
    match the scan resumes where the match ended; after an empty one
    the next character is copied.  The fuel bounds the number of
    positions visited. *)
Fixpoint sub_from (fuel : nat) (r : regex) (s : string) : option string :=
  match fuel with
  | O => None
  | S fuel' =>
      match match_here r s with
      | Some (rest, cap) =>
          if (String.length rest <? String.length s)%nat then
            option_map (append (expand1 cap)) (sub_from fuel' r rest)
          else
            match s with
            | "" => Some (expand1 cap)
            | String c s' =>
                option_map (fun t => expand1 cap ++ String c t)
                           (sub_from fuel' r s')
            end
      | None =>
          match s with
          | "" => Some ""
          | String c s' => option_map (String c) (sub_from fuel' r s')
          end
      end
  end.

Definition sub1 (r : regex) (s : string) : string :=
  match sub_from (S (String.length s)) r s with
  | Some t => t
  | None => s
  end.

(** The pattern: brace, dot-star, brace, group of dot-star. *)
Definition ns_pattern : regex :=
  Cat (Lit "{") (Cat AnyStar (Cat (Lit "}") (Group AnyStar))).

(** Two notions the proofs about the pattern use: the first line of a
    string and the rest from its first line feed on; and what the
    pattern still has to match once its first dot-star is over (the
    closing brace and the group). *)
Fixpoint line_head (s : string) : string :=
  match s with
  | "" => ""
  | String c s' => if is_dot c then String c (line_head s') else ""
  end.

Fixpoint line_rest (s : string) : string :=
  match s with
  | "" => ""
  | String c s' => if is_dot c then line_rest s' else s
  end.

Definition close_then_group (s : string) : option (string * option string) :=
  rmatch (Cat (Lit "}") (Group AnyStar)) s None (fun s' cap => Some (s', cap)).

End Re.

(** [re.sub(pattern, r'\1', tag)] with the pattern above. *)
Definition strip_ns (tag : string) : string := Re.sub1 Re.ns_pattern tag.

(* ================================================================== *)
(** ** Values, exceptions and effects *)

(** An exception: its class and its message. *)
Record exn : Type := Exn { exn_class : string; exn_msg : string }.

Definition ValueError (msg : string) : exn := Exn "ValueError" msg.
Definition TypeError (msg : string) : exn := Exn "TypeError" msg.

Inductive result (A : Type) : Type :=
| Return (a : A)
| Raise (e : exn).
Arguments Return {A} a.
Arguments Raise {A} e.

(** The two kinds of object the module adds with [+]. *)
Inductive pyobj : Type :=
| PyStr (s : string)
| PyInt (n : Z).

(** What [str + int] raises. *)
Definition str_plus_int : exn :=
  TypeError ("can only concatenate str (not " ++ PyStr.chr PyStr.DQ
             ++ "int" ++ PyStr.chr PyStr.DQ ++ ") to str").

(** [a + b] *)
Definition py_add (a b : pyobj) : result pyobj :=
  match a, b with
  | PyStr s, PyStr t => Return (PyStr (s ++ t))
  | PyInt m, PyInt n => Return (PyInt (m + n))
  | PyStr _, PyInt _ => Raise str_plus_int
  | PyInt _, PyStr _ =>
      Raise (TypeError "unsupported operand type(s) for +: 'int' and 'str'")
  end.

(** [str(v)] *)
Definition py_str (v : pyobj) : string :=
  match v with
  | PyStr s => s
  | PyInt n => DecimalString.NilZero.string_of_int (Z.to_int n)
  end.

(** [len(s)] *)
Definition py_len (s : string) : Z := Z.of_nat (String.length s).

(** A string is true when it is not empty. *)
Definition str_truthy (s : string) : bool :=
  match s with
  | "" => false
  | String _ _ => true
  end.

(** A path of the file system: whether [os.access(path, os.R_OK)]
    holds; the text stored in the file, its bytes decoded as UTF-8; what
    [open(path, mode='r', encoding='utf-8')] raises, if anything (an
    [IsADirectoryError] for a directory); and what [read()] on the open
    file raises, if anything (a [UnicodeDecodeError] when the bytes are
    not UTF-8). *)
Record File : Type := {
  readable : bool;
  contents : string;
  open_fault : option exn;
  read_fault : option exn
}.

(** What reading in text mode makes of the stored text: with the
    default [newline=None], CR LF and a lone CR become LF. *)
Definition CR : ascii := "013"%char.

Fixpoint universal_newlines (s : string) : string :=
  match s with
  | "" => ""
  | String c s' =>
      if Ascii.eqb c CR then
        match s' with
        | String d s'' =>
            if Ascii.eqb d PyStr.LF then String PyStr.LF (universal_newlines s'')
            else String PyStr.LF (universal_newlines s')
        | "" => String PyStr.LF ""
        end
      else String c (universal_newlines s')
  end.

(** One [get_config] request: the keyword arguments [source] and
    [filter]. *)
Record Rpc : Type := { rpc_source : string; rpc_filter : string * string }.

(** The object [get_config] returns. *)
Record Reply : Type := { data_xml : string }.

(** An open session [ncclient.manager.Manager]: what it answers to a
    request, given the requests it has served before; the answer is a
    reply or the exception the transport raises. *)
Record Manager : Type := { answer : list Rpc -> Rpc -> result Reply }.

Record World : Type := {
  stdout : string;
  fs : string -> option File;
  rpc_log : list Rpc
}.

Definition M (A : Type) : Type := World -> result A * World.

Definition ret {A : Type} (a : A) : M A := fun w => (Return a, w).

Definition raise {A : Type} (e : exn) : M A := fun w => (Raise e, w).

Definition bind {A B : Type} (c : M A) (k : A -> M B) : M B :=
  fun w =>
    match c w with
    | (Return a, w') => k a w'
    | (Raise e, w') => (Raise e, w')
    end.

Declare Scope py_scope.
Delimit Scope py_scope with py.
Notation "x <- c ;; k" := (bind c (fun x => k))
  (at level 61, c at next level, right associativity) : py_scope.
Notation "c ;; k" := (bind c (fun _ => k))
  (at level 61, right associativity) : py_scope.
Local Open Scope py_scope.

(** A pure computation that may raise. *)
Definition lift {A : Type} (r : result A) : M A := fun w => (r, w).

(** [print(s, end=e)] and [print(s)] *)
Definition print_end (s e : string) : M unit :=
  fun w => (Return tt,
            {| stdout := stdout w ++ s ++ e; fs := fs w; rpc_log := rpc_log w |}).

Definition print (s : string) : M unit := print_end s (PyStr.chr PyStr.LF).

(** [os.path.exists(p)] and [os.access(p, os.R_OK)] *)
Definition path_exists (p : string) : M bool :=
  fun w => (Return (match fs w p with Some _ => true | None => false end), w).

Definition access_r (p : string) : M bool :=
  fun w => (Return (match fs w p with Some f => readable f | None => false end), w).

(** [open(p, mode='r', encoding='utf-8')]: the file is opened, or the
    call raises. *)
Definition open_file (p : string) : M unit :=
  fun w =>
    match fs w p with
    | Some f =>
        match open_fault f with
        | Some e => (Raise e, w)
        | None => (Return tt, w)
        end
    | None => (Raise (Exn "FileNotFoundError" p), w)
    end.

(** [read()] on the file opened at [p]: the stored text with its line
    ends translated, or the exception of the decoder. *)
Definition read_file (p : string) : M string :=
  fun w =>
    match fs w p with
    | Some f =>
        match read_fault f with
        | Some e => (Raise e, w)
        | None => (Return (universal_newlines (contents f)), w)
        end
    | None => (Raise (Exn "FileNotFoundError" p), w)
    end.

(** [nfd.get_config(source=source, filter=filter)]: the request goes to
    the session, which answers it, and is logged. *)
Definition get_config (nfd : Manager) (source : string) (filter : string * string)
  : M Reply :=
  fun w =>
    let q := {| rpc_source := source; rpc_filter := filter |} in
    (answer nfd (rpc_log w) q,
     {| stdout := stdout w; fs := fs w; rpc_log := rpc_log w ++ [q] |}).

(* ================================================================== *)
(** ** Elements *)

(** The nodes of lxml that are not elements proper: comments,
    processing instructions and entities.  Each is an [_Element] whose
    [tag] is not a string but the factory function of its kind. *)
Inductive Factory : Type :=
| Comment
| ProcessingInstruction
| Entity.

(** A node seen from above.  An element has its tag, its text ([None]
    when it has none) and its children in document order, which may be
    of either sort: the parser of the fetcher keeps comments and
    processing instructions.  A node of the other sort has its kind and
    its text, and no children. *)
#[local] Unset Elimination Schemes.
Inductive Element : Type :=
| Elem (tag : string) (text : option string) (children : list Element)
| ContentOnly (kind : Factory) (text : option string).
#[local] Set Elimination Schemes.

(** What [x.tag] evaluates to: a string, or a factory function. *)
Inductive TagValue : Type :=
| TagStr (s : string)
| TagFactory (k : Factory).

(** [x.tag] *)
Definition tag_attr (x : Element) : TagValue :=
  match x with
  | Elem t _ _ => TagStr t
  | ContentOnly k _ => TagFactory k
  end.

(** The tag of an element proper, as a string.  It is used where the
    node is known to be one: an ancestor, a node that has a child, a
    node whose line has been printed.  For the other nodes, which have
    no such tag, it is the empty string. *)
Definition tag (x : Element) : string :=
  match tag_attr x with
  | TagStr t => t
  | TagFactory _ => ""
  end.

(** [x.text] *)
Definition text (x : Element) : option string :=
  match x with
  | Elem _ t _ => t
  | ContentOnly _ t => t
  end.

(** [x.getchildren()] *)
Definition getchildren (x : Element) : list Element :=
  match x with
  | Elem _ _ c => c
  | ContentOnly _ _ => []
  end.

(** [[f ch for ch in x.getchildren()]] *)
Definition for_children {B : Type} (f : Element -> B) (x : Element) : list B :=
  match x with
  | Elem _ _ c => map f c
  | ContentOnly _ _ => []
  end.

(** An element seen from below: the nodes of a document, each with its
    tag and what [getparent()] returns. *)
Record Doc (Node : Type) : Type := {
  node_tag : Node -> string;
  getparent : Node -> option Node
}.
Arguments node_tag {Node} d n.
Arguments getparent {Node} d n.

(** The element at an address, the list of child indices that leads to
    it from the root. *)
Fixpoint subtree_at (x : Element) (p : list nat) : option Element :=
  match p with
  | [] => Some x
  | i :: p' =>
      match nth_error (getchildren x) i with
      | Some ch => subtree_at ch p'
      | None => None
      end
  end.

(** The parent links of a parsed tree: its nodes are the addresses, and
    the parent of an address is the address without its last index. *)
Definition doc_of (x : Element) : Doc (list nat) :=
  {| node_tag := fun p =>
       match subtree_at x p with
       | Some e => tag e
       | None => ""
       end;
     getparent := fun p =>
       match p with
       | [] => None
       | _ :: _ => Some (removelast p)
       end |}.

(** What the module calls and does not define. *)
Class Platform : Type := {
  (** [os.path.abspath] *)
  abspath : string -> string;
  (** [etree.fromstring(text=s.encode('utf-8'), parser=p)] with
      [p = etree.XMLParser(ns_clean=True, recover=True, encoding='utf-8',
      remove_blank_text=b)]: the root, [None] when recovery leaves no
      root, or the parser's exception. *)
  fromstring : bool -> string -> result (option Element);
  (** [etree.tostring(e).decode()] *)
  tostring : Element -> string;
  (** [pprint.pformat] *)
  pformat : string -> string
}.

(* ================================================================== *)
(** ** The XML helpers of cndev.py *)

(** The tag [xml_to_tree] prints for an element whose [tag] is [t]:
    [t] itself, or [t] through the substitution. *)
Definition tree_tag (preserve_ns : bool) (t : string) : string :=
  if preserve_ns then t else strip_ns t.

(** [x.text] as an operand of [and] and of the conditional expression. *)
Definition text_truthy (t : option string) : bool :=
  match t with
  | Some s => str_truthy s
  | None => false
  end.

Definition text_str (t : option string) : string :=
  match t with
  | Some s => s
  | None => ""
  end.

(** The text [xml_to_tree] prints. *)
Definition tree_text (text_strip : bool) (x : Element) : string :=
  if text_strip && text_truthy (text x) then PyStr.strip (text_str (text x))
  else if text_truthy (text x) then text_str (text x) else "".

(** The string the generator yields for one element: the two adjacent
    f-strings make one string. *)
Definition tree_line (lvl : Z) (tg tx : string) : string :=
  PyStr.mul "  " (lvl - 1) ++ "|--Tag: " ++ tg
  ++ PyStr.mul "  " (lvl - 1) ++ "|  Text: " ++ tx.

(** How the consumption of a generator ends: the generator is
    exhausted, or an exception of the given class comes out of it.  The
    message of the exception depends on the interpreter and is not part
    of the model. *)
Inductive gen_end : Type :=
| Exhausted
| Raised (cls : string).

(** A generator consumed to its end: the strings it yields, in order,
    and how it ends. *)
Definition Listing : Type := (list string * gen_end)%type.

(** The tag of the line, when [x.tag] can be printed.  With
    [preserve_ns] a tag that is not a string fails in the f-string,
    whose format specification only strings take; without it, it fails
    in [re.sub], which wants a string.  Both are type errors, and both
    come before the [yield]. *)
Definition printed_tag (preserve_ns : bool) (v : TagValue) : option string :=
  match v with
  | TagStr t => Some (tree_tag preserve_ns t)
  | TagFactory _ => None
  end.

(** The [for] loop over the children, each consumed with [yield from]:
    the first child whose generator raises ends the loop. *)
Fixpoint yield_from (gs : list Listing) : Listing :=
  match gs with
  | [] => ([], Exhausted)
  | (ls, Exhausted) :: rest =>
      let (ls', e) := yield_from rest in ((ls ++ ls')%list, e)
  | (ls, Raised cls) :: _ => (ls, Raised cls)
  end.

(** [xml_to_tree(x, lvl, preserve_ns, text_strip)], consumed to its
    end. *)
Fixpoint xml_to_tree (x : Element) (lvl : Z) (preserve_ns text_strip : bool)
  : Listing :=
  match printed_tag preserve_ns (tag_attr x) with
  | None => ([], Raised "TypeError")
  | Some tg =>
      let (ls, e) :=
        yield_from
          (for_children
             (fun ch => xml_to_tree ch (lvl + 1) preserve_ns text_strip) x) in
      (tree_line lvl tg (tree_text text_strip x) :: ls, e)
  end.

(** The name [get_path_to_root] records for an ancestor whose [tag] is
    [t]. *)
Definition path_name (preserve_ns : bool) (t : string) : string :=
  if preserve_ns then PyStr.strip t else strip_ns (PyStr.strip t).

(** The [while] loop of [get_path_to_root]: [fuel] bounds the number of
    iterations, and [None] says that the loop is still running when it
    is used up. *)
Fixpoint path_loop {Node : Type} (d : Doc Node) (preserve_ns : bool)
    (fuel : nat) (anc : option Node) (path : list string) : option (list string) :=
  match anc with
  | None => Some path
  | Some a =>
      match fuel with
      | O => None
      | S fuel' =>
          path_loop d preserve_ns fuel' (getparent d a)
                    (path_name preserve_ns (node_tag d a) :: path)
      end
  end.

Definition get_path_to_root {Node : Type} (d : Doc Node) (fuel : nat)
    (e : Node) (preserve_ns : bool) : option (list string) :=
  path_loop d preserve_ns fuel (getparent d e) [].

Definition get_xml_str `{Platform} (e : Element) (pprn : bool) : M string :=
  let rstr := tostring e in
  (if pprn then print (pformat rstr) else ret tt) ;;
  ret rstr.

Definition default_fdir : string := "sros_nf_filters".

Definition load_xml_filter `{Platform} (fname fdir : string) : M string :=
  let path_input_file := abspath (fdir ++ "/" ++ fname ++ ".xml") in
  ex <- path_exists path_input_file ;;
  ok <- (if ex then access_r path_input_file else ret false) ;;
  if ok then
    open_file path_input_file ;;
    print_end "fh type: " "" ;;
    print "<class '_io.TextIOWrapper'>" ;;
    data <- read_file path_input_file ;;
    ret data
  else
    print ("Can't load filter " ++ fname) ;;
    let msg := "Please directory " ++ fdir
               ++ " exist and intended filter present in the directory." in
    raise (ValueError msg).

(** The literal bound to [def_xml_filter]: a line feed, fourteen blanks
    and the opening tag, then a line feed, fourteen blanks and the
    closing tag. *)
Definition def_xml_filter : string :=
  PyStr.chr PyStr.LF ++ "              <configure xmlns=" ++ PyStr.chr PyStr.DQ
  ++ "urn:nokia.com:sros:ns:yang:sr:conf" ++ PyStr.chr PyStr.DQ ++ ">"
  ++ PyStr.chr PyStr.LF ++ "              </configure>".

Definition default_source : string := "running".

Definition get_sros_elem_config `{Platform} (nfd : Manager)
    (xml_filter source : string) (remove_blank_text pprn : bool)
  : M (option Element) :=
  response_xml <-
    (if str_truthy xml_filter
     then get_config nfd source ("subtree", xml_filter)
     else get_config nfd source ("subtree", def_xml_filter)) ;;
  (if pprn then
     let title := " Retrieved SROS XML config " in
     print (PyStr.mul "=" 20 ++ title ++ PyStr.mul "=" 20) ;;
     print (data_xml response_xml) ;;
     footer <- lift (py_add (PyStr (PyStr.mul "=" 40)) (PyInt (py_len title))) ;;
     print (py_str footer)
   else ret tt) ;;
  lift (fromstring remove_blank_text (data_xml response_xml)).

(* ================================================================== *)
(** ** Vocabulary of the specification *)

(** The number of nodes of a tree. *)
Fixpoint count_nodes (x : Element) : nat :=
  S (list_sum (for_children count_nodes x)).

(** A node is an element proper, and so are all the nodes of a tree. *)
Definition is_element (x : Element) : bool :=
  match tag_attr x with
  | TagStr _ => true
  | TagFactory _ => false
  end.

Fixpoint all_elements (x : Element) : bool :=
  is_element x && forallb (fun b => b) (for_children all_elements x).

(** Every node of a listing is an element. *)
Definition only_elements (l : list (nat * Element)) : bool :=
  forallb (fun dn => is_element (snd dn)) l.

(** The nodes of a listing that come before its first node that is not
    an element. *)
Fixpoint elements_before (l : list (nat * Element)) : list (nat * Element) :=
  match l with
  | [] => []
  | dn :: l' => if is_element (snd dn) then dn :: elements_before l' else []
  end.

(** Pre-order: the root first, then each child's subtree in document
    order; every node comes with its distance from the root. *)
Fixpoint preorder (x : Element) (dist : nat) : list (nat * Element) :=
  (dist, x)
  :: concat (for_children (fun ch => preorder ch (S dist)) x).

(** The line of a node that lies [fst dn] levels below a root printed at
    level [lvl]. *)
Definition line_at (lvl : Z) (pns ts : bool) (dn : nat * Element) : string :=
  tree_line (lvl + Z.of_nat (fst dn)) (tree_tag pns (tag (snd dn)))
            (tree_text ts (snd dn)).

(** The ancestor [k] parent links above [e], when there is one. *)
Fixpoint nth_parent {Node : Type} (d : Doc Node) (k : nat) (e : Node)
  : option Node :=
  match k with
  | O => Some e
  | S k' =>
      match getparent d e with
      | Some p => nth_parent d k' p
      | None => None
      end
  end.

(** [e] is at depth [D]: [D] parent links lead from it to an element
    that has no parent. *)
Definition depth_is {Node : Type} (d : Doc Node) (e : Node) (D : nat) : Prop :=
  exists r, nth_parent d D e = Some r /\ getparent d r = None.

(** The parent chain of [e] contains a cycle: some ancestor of [e] is
    its own ancestor. *)
Definition cyclic_chain {Node : Type} (d : Doc Node) (e : Node) : Prop :=
  exists k n a,
    nth_parent d (S k) e = Some a /\ nth_parent d (S n) a = Some a.

(** The walk from [e] returns. *)
Definition path_terminates {Node : Type} (d : Doc Node) (e : Node)
    (preserve_ns : bool) : Prop :=
  exists fuel path, get_path_to_root d fuel e preserve_ns = Some path.

(** The ancestors of [e], nearest first, at most [k] of them. *)
Fixpoint ancestors {Node : Type} (d : Doc Node) (k : nat) (e : Node)
  : list Node :=
  match k with
  | O => []
  | S k' =>
      match getparent d e with
      | Some p => p :: ancestors d k' p
      | None => []
      end
  end.

(** A string starts or ends with a white-space character. *)
Fixpoint ends_with_space (s : string) : bool :=
  match s with
  | "" => false
  | String c "" => PyStr.isspace c
  | String _ s' => ends_with_space s'
  end.

Definition outer_space (s : string) : bool :=
  match s with
  | "" => false
  | String c _ => PyStr.isspace c || ends_with_space s
  end.

(** The default filter as the specification spells it. *)
Definition spec_default_filter : string :=
  "<configure xmlns=" ++ PyStr.chr PyStr.DQ
  ++ "urn:nokia.com:sros:ns:yang:sr:conf" ++ PyStr.chr PyStr.DQ
  ++ "></configure>".

(** A text without its layout: every line feed goes, and so do the
    blanks that follow one. *)
Fixpoint unindent (after_lf : bool) (s : string) : string :=
  match s with
  | "" => ""
  | String c s' =>
      if Ascii.eqb c PyStr.LF then unindent true s'
      else if after_lf && Ascii.eqb c " " then unindent true s'
      else String c (unindent false s')
  end.

(** The request the fetcher sends for a filter argument and a datastore. *)
Definition request_for (xml_filter source : string) : Rpc :=
  {| rpc_source := source;
     rpc_filter := ("subtree",
                    if str_truthy xml_filter then xml_filter else def_xml_filter) |}.

(** The file a filter name resolves to is missing or unreadable. *)
Definition filter_unavailable `{Platform} (w : World) (fname fdir : string) : Prop :=
  match fs w (abspath (fdir ++ "/" ++ fname ++ ".xml")) with
  | None => True
  | Some f => readable f = false
  end.

(** What opening a path and reading it gives: the text, its line ends
    translated, or the exception of the opening or of the reading. *)
Definition read_text (f : File) : result string :=
  match open_fault f with
  | Some e => Raise e
  | None =>
      match read_fault f with
      | Some e => Raise e
      | None => Return (universal_newlines (contents f))
      end
  end.

(** An exception names [s]: its message contains [s]. *)
Definition names (e : exn) (s : string) : bool := PyStr.contains s (exn_msg e).

(** A brace group starts somewhere in [s]: an opening brace with a
    closing brace after it on the same line. *)
Fixpoint has_group (s : string) : bool :=
  match s with
  | "" => false
  | String c s' =>
      (Ascii.eqb "{" c && PyStr.has_char "}" (Re.line_head s')) || has_group s'
  end.

(** What follows the last closing brace of a line (the whole line when
    it has none). *)
Fixpoint after_last_close (l : string) : string :=
  match l with
  | "" => ""
  | String c l' =>
      if PyStr.has_char "}" l' then after_last_close l'
      else if Ascii.eqb "}" c then l' else l
  end.

(** Every character of a string is white space. *)
Fixpoint all_space (s : string) : bool :=
  match s with
  | "" => true
  | String c s' => PyStr.isspace c && all_space s'
  end.

(* ================================================================== *)
(** ** Sample objects *)

Module Sample.

Definition conf_ns : string := "urn:nokia.com:sros:ns:yang:sr:conf".

Definition qname (local : string) : string := "{" ++ conf_ns ++ "}" ++ local.

(** [<configure xmlns=...><router><interface> lo0 </interface></router>
    <system/></configure>] *)
Definition config : Element :=
  Elem (qname "configure") None
    [ Elem (qname "router") None
        [ Elem (qname "interface") (Some " lo0 ") [] ];
      Elem (qname "system") None [] ].

(** A malformed document: node 0 is its own parent, and the parent of
    every other node. *)
Definition loop_doc : Doc nat :=
  {| node_tag := fun _ => "a"; getparent := fun _ => Some 0 |}.

(** The payload of a reply, and the tree the parser makes of it. *)
Definition payload : string :=
  "<configure xmlns=" ++ PyStr.chr PyStr.DQ ++ conf_ns ++ PyStr.chr PyStr.DQ
  ++ "><x>1</x></configure>".

Definition parsed_payload : Element :=
  Elem (qname "configure") None [ Elem (qname "x") (Some "1") [] ].

(** A platform whose parser knows that payload and finds no document
    in any other text. *)
#[local] Instance stub_platform : Platform :=
  {| abspath := fun p => "/home/user/" ++ p;
     fromstring := fun _ s =>
       if String.eqb s payload then Return (Some parsed_payload)
       else Raise (Exn "XMLSyntaxError" "Document is empty, line 1, column 1");
     tostring := fun _ => "";
     pformat := fun s => "'" ++ s ++ "'" |}.

(** A session that answers every request with the same payload. *)
Definition session (xml : string) : Manager :=
  {| answer := fun _ _ => Return {| data_xml := xml |} |}.

(** A world with an empty file system, nothing printed, nothing sent. *)
Definition empty_world : World :=
  {| stdout := ""; fs := fun _ => None; rpc_log := [] |}.

End Sample.

(* ================================================================== *)
(** ** The other helpers of cndev.py *)

(** What these helpers call and the module does not define: the JSON
    decoder, TextFSM, the clock and the way a duration is printed.  The
    values they return are kept abstract. *)
Class Toolkit : Type := {
  (** what [json.load] returns *)
  Json : Type;
  (** [json.load] on the text read from the file *)
  json_load : string -> result Json;
  (** a compiled template and a parsed table *)
  Fsm : Type;
  Table : Type;
  (** [textfsm.TextFSM] on the text read from the template *)
  textfsm_new : string -> result Fsm;
  (** [re_table.ParseText(cli_output)] *)
  parse_text : Fsm -> string -> result Table;
  (** [str] of a parsed table *)
  table_str : Table -> string;
  (** a reading of [time.time()], the difference of two readings and
      the way an f-string prints one *)
  Time : Type;
  time_sub : Time -> Time -> Time;
  time_str : Time -> string
}.

(** [try: c except cls as e: h e]: the handler takes the exceptions of
    class [cls], the others pass. *)
Definition try_except {A : Type} (c : M A) (cls : string) (h : exn -> M A) : M A :=
  fun w =>
    match c w with
    | (Return a, w') => (Return a, w')
    | (Raise e, w') =>
        if String.eqb (exn_class e) cls then h e w' else (Raise e, w')
    end.

(** [load_json_data(file_name)] *)
Definition load_json_data `{Platform} `{Toolkit} (file_name : string) : M Json :=
  let path_input_file := abspath file_name in
  ex <- path_exists path_input_file ;;
  ok <- (if ex then access_r path_input_file else ret false) ;;
  if ok then
    open_file path_input_file ;;
    data <- try_except (text <- read_file path_input_file ;;
                        lift (json_load text))
              "JSONDecodeError"
              (fun de =>
                 print ("JSON format decode error." ++ exn_msg de) ;;
                 raise de) ;;
    ret data
  else
    print ("Can't access file " ++ file_name) ;;
    let msg := "Please provide valid file name and/or path." in
    raise (ValueError msg).

(** [apply_template(template, cli_output, debug)]; the [return None]
    that ends the function is never reached. *)
Definition apply_template `{Platform} `{Toolkit} (template cli_output : string)
    (debug : bool) : M Table :=
  let path_to_template_file := abspath template in
  ex <- path_exists path_to_template_file ;;
  ok <- (if ex then access_r path_to_template_file else ret false) ;;
  if ok then
    open_file path_to_template_file ;;
    tfh <- read_file path_to_template_file ;;
    re_table <- lift (textfsm_new tfh) ;;
    cli_data <- lift (parse_text re_table cli_output) ;;
    (if debug then print (table_str cli_data) else ret tt) ;;
    ret cli_data
  else
    let msg := "Incorrect template file name: " ++ path_to_template_file in
    raise (ValueError msg).

(** The arguments a [jinja2.Environment] is built from. *)
Record J2Env : Type := {
  searchpath : string;
  followlinks : bool;
  strict_undefined : bool
}.

Definition default_j2_path : string := "./j2".

(** [load_j2_env(path_to_templ)]: the function has no [else], so it
    returns [None] when the test fails. *)
Definition load_j2_env (path_to_templ : string) : M (option J2Env) :=
  ex <- path_exists path_to_templ ;;
  ok <- (if ex then access_r path_to_templ else ret false) ;;
  if ok then
    let temp_env := {| searchpath := path_to_templ;
                       followlinks := true;
                       strict_undefined := true |} in
    ret (Some temp_env)
  else ret None.

(** *** Logging *)

Record Formatter : Type := { fmt : string; datefmt : string; style : string }.

Record Handler : Type := {
  h_filename : string;
  h_encoding : string;
  h_level : Z;
  h_formatter : option Formatter
}.

(** A logger: its level and its handlers, in the order they were
    added. *)
Record Logger : Type := { l_level : Z; l_handlers : list Handler }.

(** The loggers of [logging], each under its own name (its [name]
    attribute); the root logger is the one named [root]. *)
Definition Logging : Type := string -> Logger.

(** [logging.getLogger(name)]: a reference to the one logger that the
    name denotes, given here by the name of that logger.  The empty
    name and the name [root] both denote the root logger (Python 3.9
    and later); any other name denotes the logger of that name. *)
Definition getLogger (name : string) : string :=
  if String.eqb name "" || String.eqb name "root" then "root" else name.

Definition WARNING : Z := 30.

(** The loggers after the logger [log] has taken the state [l]. *)
Definition set_logger (log : string) (l : Logger) (reg : Logging) : Logging :=
  fun n => if String.eqb n log then l else reg n.

(** [enable_logging(name, log_file, level)]; it returns the logger, a
    reference.  [opened] is what opening [log_file] for appending gives
    when [logging.FileHandler] is built: nothing, or the exception it
    raises. *)
Definition enable_logging (opened : string -> option exn)
    (name log_file : string) (level : Z) (reg : Logging)
  : result string * Logging :=
  let log_fmt := "[{asctime} {levelname:<8} [{name}:{filename:<10}:{lineno}] {message}" in
  let date_fmt := "%d/%m/%Y %H:%M:%S" in
  let log := getLogger name in
  let reg1 := set_logger log {| l_level := level;
                                l_handlers := l_handlers (reg log) |} reg in
  let formatter := {| fmt := log_fmt; datefmt := date_fmt; style := "{" |} in
  match opened log_file with
  | Some e => (Raise e, reg1)
  | None =>
      let fh := {| h_filename := log_file; h_encoding := "utf-8";
                   h_level := level; h_formatter := Some formatter |} in
      (Return log,
       set_logger log {| l_level := l_level (reg1 log);
                         l_handlers := l_handlers (reg1 log) ++ [fh] |} reg1)
  end.

(** *** The run-time decorator *)

(** What a decorated function runs in: the readings the clock gives,
    how many have been taken, the records handed to the loggers (logger
    and message), and the state of the program. *)
Record RunWorld `{Toolkit} (S : Type) : Type := {
  clock : nat -> Time;
  taken : nat;
  records : list (string * string);
  program : S
}.
Arguments clock {H S} r.
Arguments taken {H S} r.
Arguments records {H S} r.
Arguments program {H S} r.

(** A function object: its [__name__] and what calling it does. *)
Record Func `{Toolkit} (S A B : Type) : Type := {
  fn_name : string;
  fn_call : A -> RunWorld S -> result B * RunWorld S
}.
Arguments fn_name {H S A B} f.
Arguments fn_call {H S A B} f.

(** [time.time()] *)
Definition time_time `{Toolkit} {S : Type} (r : RunWorld S) : Time * RunWorld S :=
  (clock r (taken r),
   {| clock := clock r; taken := Datatypes.S (taken r);
      records := records r; program := program r |}).

(** [logger.info(msg)] *)
Definition logger_info `{Toolkit} {S : Type} (logger msg : string)
    (r : RunWorld S) : RunWorld S :=
  {| clock := clock r; taken := taken r;
     records := records r ++ [(logger, msg)]; program := program r |}.

(** [runtimeit_logger(logger)(run_func)]: the wrapper [timeit], which
    [functools.wraps] gives the name of [run_func]. *)
Definition runtimeit_logger `{Toolkit} {S A B : Type} (logger : string)
    (run_func : Func S A B) : Func S A B :=
  {| fn_name := fn_name run_func;
     fn_call := fun args r =>
       let (start, r1) := time_time r in
       match fn_call run_func args r1 with
       | (Return run_func_result, r2) =>
           let (end_, r3) := time_time r2 in
           (Return run_func_result,
            logger_info logger
              ("Runtime of " ++ fn_name run_func ++ ": "
               ++ time_str (time_sub end_ start) ++ " seconds") r3)
       | (Raise e, r2) => (Raise e, r2)
       end |}.

(** The message of the record for a run between two readings of the
    clock. *)
Definition runtime_message `{Toolkit} (name : string) (t_end t_start : Time)
  : string :=
  "Runtime of " ++ name ++ ": " ++ time_str (time_sub t_end t_start) ++ " seconds".

(* ================================================================== *)
(** ** More sample objects *)

Module Lab.

(** A session whose transport is down. *)
Definition down : exn := Exn "TransportError" "Not connected to NETCONF server".

Definition down_session : Manager := {| answer := fun _ _ => Raise down |}.

(** A readable text file, and a readable directory. *)
Definition text_file (text : string) : File :=
  {| readable := true; contents := text; open_fault := None; read_fault := None |}.

Definition directory (path : string) : File :=
  {| readable := true; contents := "";
     open_fault := Some (Exn "IsADirectoryError"
                             ("[Errno 21] Is a directory: '" ++ path ++ "'"));
     read_fault := None |}.

(** A world whose file system holds one path. *)
Definition world_of (path : string) (f : File) : World :=
  {| stdout := "";
     fs := fun p => if String.eqb p path then Some f else None;
     rpc_log := [] |}.

(** A world whose file system holds one readable file. *)
Definition world_with (path text : string) : World :=
  world_of path (text_file text).

(** A toolkit over strings: the decoder accepts the text [{}] only,
    templates and tables are texts, times are numbers of seconds. *)
#[local] Instance stub_toolkit : Toolkit :=
  {| Json := string;
     json_load := fun s =>
       if String.eqb s "{}" then Return s
       else Raise (Exn "JSONDecodeError"
                       "Expecting value: line 1 column 1 (char 0)");
     Fsm := string;
     Table := string;
     textfsm_new := fun s => Return s;
     parse_text := fun _ s => Return ("[['" ++ s ++ "']]");
     table_str := fun t => t;
     Time := nat;
     time_sub := Nat.sub;
     time_str := fun n => if Nat.eqb n 1 then "1" else "?" |}.

(** No logger has been set up. *)
Definition no_loggers : Logging := fun _ => {| l_level := 0; l_handlers := [] |}.

(** A clock that gives 0, 1, 2, ... and a function [work] that counts
    its calls in the state of the program. *)
Definition start_world : RunWorld (H := stub_toolkit) nat :=
  {| clock := fun n => n; taken := 0; records := []; program := 0 |}.

Definition work : Func (H := stub_toolkit) nat unit nat :=
  {| fn_name := "work";
     fn_call := fun _ r =>
       (Return (program r),
        {| clock := clock r; taken := taken r; records := records r;
           program := Datatypes.S (program r) |}) |}.

Definition broken : Func (H := stub_toolkit) nat unit nat :=
  {| fn_name := "broken";
     fn_call := fun _ r => (Raise (Exn "RuntimeError" "boom"), r) |}.

End Lab.

(* ================================================================== *)
(** * Properties *)

(** ** Strings *)

Section StringFacts.

Lemma length_append (a b : string) :
  String.length (a ++ b) = String.length a + String.length b.
Proof. induction a as [|x a IH]; simpl; [reflexivity | now rewrite IH]. Qed.

Lemma starts_with_append (p s : string) : PyStr.starts_with p (p ++ s) = true.
Proof.
  induction p as [|x p IH]; simpl; [reflexivity|].
  now rewrite Ascii.eqb_refl, IH.
Qed.

Lemma contains_here (p s : string) :
  PyStr.starts_with p s = true -> PyStr.contains p s = true.
Proof. intros H. destruct s; simpl; now rewrite H. Qed.

Lemma contains_middle (a p b : string) : PyStr.contains p (a ++ p ++ b) = true.
Proof.
  induction a as [|x a IH]; simpl.
  - apply contains_here, starts_with_append.
  - rewrite IH. apply orb_true_r.
Qed.

Lemma leading_blanks_indent (n : nat) (s : string) :
  PyStr.leading_blanks (PyStr.repeat_nat "  " n ++ String "|" s) = 2 * n.
Proof.
  induction n as [|n IH]; simpl; [reflexivity|].
  rewrite IH. lia.
Qed.

End StringFacts.

(** ** The substitution *)

Module ReFacts.
Import Re.

Lemma line_split (s : string) : line_head s ++ line_rest s = s.
Proof.
  induction s as [|c s IH]; simpl; [reflexivity|].
  destruct (is_dot c); simpl; [now rewrite IH | reflexivity].
Qed.

Lemma line_rest_length (s : string) :
  String.length (line_rest s) <= String.length s.
Proof.
  induction s as [|c s IH]; simpl; [lia|].
  destruct (is_dot c); simpl; lia.
Qed.

Lemma line_rest_has_char (c : ascii) (s : string) :
  PyStr.has_char c s = false -> PyStr.has_char c (line_rest s) = false.
Proof.
  induction s as [|x s IH]; simpl; [easy|].
  intros H. apply orb_false_iff in H as [Hx Hs].
  destruct (is_dot x); simpl; [auto | now rewrite Hx, Hs].
Qed.

Lemma consumed_line (s : string) : consumed s (line_rest s) = line_head s.
Proof.
  unfold consumed.
  induction s as [|c s IH]; [reflexivity|].
  cbn [line_rest line_head]. destruct (is_dot c) eqn:E.
  - pose proof (line_rest_length s) as L.
    cbn [String.length].
    replace (S (String.length s) - String.length (line_rest s))
      with (S (String.length s - String.length (line_rest s))) by lia.
    cbn [PyStr.take]. now rewrite IH.
  - now rewrite Nat.sub_diag.
Qed.

(** A greedy dot-star whose continuation always succeeds runs to the
    end of the line. *)
Lemma dot_star_total {R : Type} (f : string -> R) (s : string) :
  dot_star s (fun s' => Some (f s')) = Some (f (line_rest s)).
Proof.
  induction s as [|c s IH]; simpl; [reflexivity|].
  destruct (is_dot c); [now rewrite IH | reflexivity].
Qed.

Lemma match_here_ns (s : string) :
  match_here ns_pattern s =
  match s with
  | String d s' => if Ascii.eqb "{" d then dot_star s' close_then_group else None
  | "" => None
  end.
Proof. reflexivity. Qed.

Lemma close_then_group_brace (s : string) :
  close_then_group (String "}" s) = Some (line_rest s, Some (line_head s)).
Proof.
  unfold close_then_group. cbn [rmatch]. rewrite Ascii.eqb_refl.
  rewrite (dot_star_total (fun s' => (s', Some (consumed s s')))).
  now rewrite consumed_line.
Qed.

Lemma close_then_group_other (c : ascii) (s : string) :
  Ascii.eqb "}" c = false -> close_then_group (String c s) = None.
Proof. intros H. unfold close_then_group. cbn [rmatch]. now rewrite H. Qed.

(** Without a closing brace the dot-star of the pattern has nowhere
    to stop. *)
Lemma dot_star_no_close (s : string) :
  PyStr.has_char "}" s = false -> dot_star s close_then_group = None.
Proof.
  induction s as [|c s IH]; cbn [PyStr.has_char dot_star]; [reflexivity|].
  intros H. apply orb_false_iff in H as [Hc Hs].
  rewrite (IH Hs), (close_then_group_other c s Hc).
  now destruct (is_dot c).
Qed.

Lemma match_here_no_close (s : string) :
  PyStr.has_char "}" s = false -> match_here ns_pattern s = None.
Proof.
  intros H. rewrite match_here_ns. destruct s as [|d s]; [reflexivity|].
  cbn [PyStr.has_char] in H. apply orb_false_iff in H as [_ Hs].
  rewrite (dot_star_no_close s Hs). now destruct (Ascii.eqb "{" d).
Qed.

(** Backtracking stops at the last closing brace of the line. *)
Lemma dot_star_last_close (uri name : string) :
  PyStr.has_char PyStr.LF uri = false ->
  PyStr.has_char "}" name = false ->
  dot_star (uri ++ String "}" name) close_then_group
  = Some (line_rest name, Some (line_head name)).
Proof.
  intros Hu Hn. induction uri as [|c uri IH]; cbn [append dot_star].
  - rewrite (dot_star_no_close name Hn).
    now rewrite close_then_group_brace.
  - cbn [PyStr.has_char] in Hu. apply orb_false_iff in Hu as [Hc Hu].
    unfold is_dot. rewrite Ascii.eqb_sym, Hc. cbn [negb].
    now rewrite (IH Hu).
Qed.

(** A string without a closing brace goes through unchanged. *)
Lemma sub_from_no_close (s : string) :
  PyStr.has_char "}" s = false ->
  forall fuel, String.length s < fuel -> sub_from fuel ns_pattern s = Some s.
Proof.
  induction s as [|c s IH]; intros H fuel Hf.
  - destruct fuel; [lia | reflexivity].
  - destruct fuel as [|fuel]; [lia|].
    cbn [sub_from]. rewrite (match_here_no_close _ H).
    cbn [PyStr.has_char] in H. apply orb_false_iff in H as [_ Hs].
    simpl in Hf. rewrite (IH Hs fuel) by lia. reflexivity.
Qed.

(** The scan never runs out of fuel. *)
Lemma sub_from_total (r : regex) (fuel : nat) :
  forall s, String.length s < fuel -> sub_from fuel r s <> None.
Proof.
  induction fuel as [|fuel IH]; intros s Hs; [lia|].
  cbn [sub_from].
  destruct (match_here r s) as [[rest cap]|].
  - destruct (String.length rest <? String.length s)%nat eqn:E.
    + apply Nat.ltb_lt in E.
      destruct (sub_from fuel r rest) eqn:F; [discriminate|].
      exfalso. apply (IH rest); [lia | exact F].
    + destruct s as [|c s]; [discriminate|].
      destruct (sub_from fuel r s) eqn:F; [discriminate|].
      exfalso. apply (IH s); [simpl in Hs; lia | exact F].
  - destruct s as [|c s]; [discriminate|].
    destruct (sub_from fuel r s) eqn:F; [discriminate|].
    exfalso. apply (IH s); [simpl in Hs; lia | exact F].
Qed.

Lemma sub1_spec (r : regex) (s : string) :
  sub_from (S (String.length s)) r s = Some (sub1 r s).
Proof.
  unfold sub1.
  destruct (sub_from (S (String.length s)) r s) eqn:E; [reflexivity|].
  exfalso. apply (sub_from_total r (S (String.length s)) s); [lia | exact E].
Qed.

End ReFacts.

Example strip_ns_conf :
  strip_ns "{urn:nokia.com:sros:ns:yang:sr:conf}configure" = "configure".
Proof. reflexivity. Qed.

Example strip_ns_bare : strip_ns "configure" = "configure".
Proof. reflexivity. Qed.

Example strip_ns_greedy : strip_ns "{a}b}c" = "c".
Proof. reflexivity. Qed.

Example strip_ns_two_lines :
  strip_ns ("{a}b" ++ PyStr.chr PyStr.LF ++ "{c}d") = "b" ++ PyStr.chr PyStr.LF ++ "d".
Proof. reflexivity. Qed.

Example strip_ns_uri_lf :
  strip_ns ("{a" ++ PyStr.chr PyStr.LF ++ "b}c") = "{a" ++ PyStr.chr PyStr.LF ++ "b}c".
Proof. reflexivity. Qed.

Example strip_example : PyStr.strip "  a b  " = "a b".
Proof. reflexivity. Qed.

Lemma strip_ns_no_close (t : string) :
  PyStr.has_char "}" t = false -> strip_ns t = t.
Proof.
  intros H. unfold strip_ns, Re.sub1.
  now rewrite (ReFacts.sub_from_no_close t H) by lia.
Qed.

Lemma strip_ns_qualified (uri name : string) :
  PyStr.has_char PyStr.LF uri = false ->
  PyStr.has_char "}" name = false ->
  strip_ns ("{" ++ uri ++ "}" ++ name) = name.
Proof.
  intros Hu Hn. unfold strip_ns, Re.sub1.
  cbn [Re.sub_from]. rewrite ReFacts.match_here_ns.
  cbn [append Ascii.eqb Bool.eqb]. 
  change (String "{" (uri ++ String "}" name)) with ("{" ++ uri ++ "}" ++ name).
  rewrite (ReFacts.dot_star_last_close uri name Hu Hn).
  assert (L : String.length (Re.line_rest name)
              < String.length ("{" ++ uri ++ "}" ++ name)).
  { pose proof (ReFacts.line_rest_length name).
    simpl. rewrite length_append. simpl. lia. }
  apply Nat.ltb_lt in L as L'. rewrite L'.
  rewrite ReFacts.sub_from_no_close.
  - simpl. now rewrite ReFacts.line_split.
  - now apply ReFacts.line_rest_has_char.
  - exact L.
Qed.

(** ** Stripping *)

Lemma rstrip_id (s : string) : ends_with_space s = false -> PyStr.rstrip s = s.
Proof.
  induction s as [|c s IH]; [reflexivity|].
  destruct s as [|c' s'].
  - cbn. now intros ->.
  - intros H. change (ends_with_space (String c' s') = false) in H.
    change (PyStr.rstrip (String c (String c' s')))
      with (match PyStr.rstrip (String c' s') with
            | "" => if PyStr.isspace c then "" else String c ""
            | String x r => String c (String x r)
            end).
    now rewrite (IH H).
Qed.

Lemma strip_id (s : string) : outer_space s = false -> PyStr.strip s = s.
Proof.
  destruct s as [|c s]; [reflexivity|].
  unfold outer_space. intros H. apply orb_false_iff in H as [Hc He].
  unfold PyStr.strip. cbn [PyStr.lstrip]. rewrite Hc.
  now apply rstrip_id.
Qed.

(** ** The namespace normalization (C7) *)

(** C7, as amended.  The substitution turns a tag [{uri}name] into
    [name] when [uri] holds no line feed and [name] no closing brace; it
    leaves a tag without braces as it is; with [preserve_ns] the tree
    printer keeps the tag as it is.  The ancestor walk normalizes the
    tag stripped of its outer white space, and so agrees with the tree
    printer on every tag that has none. *)
Theorem namespace_normalization :
  (forall uri name,
      PyStr.has_char PyStr.LF uri = false ->
      PyStr.has_char "}" name = false ->
      tree_tag false ("{" ++ uri ++ "}" ++ name) = name)
  /\ (forall t,
         PyStr.has_char "{" t = false ->
         PyStr.has_char "}" t = false ->
         tree_tag false t = t)
  /\ (forall t, tree_tag true t = t)
  /\ (forall pns t, path_name pns t = tree_tag pns (PyStr.strip t))
  /\ (forall pns t, outer_space t = false -> path_name pns t = tree_tag pns t).
Proof.
  split; [| split; [| split; [| split]]].
  - intros uri name Hu Hn. now apply strip_ns_qualified.
  - intros t _ Hc. now apply strip_ns_no_close.
  - reflexivity.
  - intros [|] t; reflexivity.
  - intros pns t H. unfold path_name, tree_tag.
    rewrite (strip_id t H). reflexivity.
Qed.

Lemma namespace_normalization_witness :
  tree_tag false (Sample.qname "configure") = "configure"
  /\ tree_tag false "configure" = "configure"
  /\ path_name false (Sample.qname "configure") = "configure".
Proof.
  destruct namespace_normalization as (Hq & Hb & _ & _ & Hp).
  split; [| split].
  - apply (Hq Sample.conf_ns "configure"); reflexivity.
  - apply (Hb "configure"); reflexivity.
  - rewrite (Hp false (Sample.qname "configure")) by reflexivity.
    apply (Hq Sample.conf_ns "configure"); reflexivity.
Defined.

(** C7, as stated, fails: a closing brace in the name makes the greedy
    dot-star run past the namespace, a line feed in the namespace keeps
    the pattern from matching, and the ancestor walk strips the tag even
    when it preserves the namespace. *)
Lemma namespace_normalization_counterexample :
  tree_tag false ("{" ++ "a" ++ "}" ++ "b}c") = "c"
  /\ tree_tag false ("{" ++ "a" ++ "}" ++ "b}c") <> "b}c"
  /\ tree_tag false ("{" ++ ("a" ++ PyStr.chr PyStr.LF ++ "b") ++ "}" ++ "c") <> "c"
  /\ path_name true " a" <> " a".
Proof.
  repeat split; try reflexivity; vm_compute; discriminate.
Qed.

(** ** The tree printer (C3) *)

(** Induction on a tree, with the property known of every child. *)
Lemma Element_induction (P : Element -> Prop) :
  (forall tg tx chs, Forall P chs -> P (Elem tg tx chs)) ->
  (forall k tx, P (ContentOnly k tx)) ->
  forall x, P x.
Proof.
  intros step leaf. fix rec 1. intros [tg tx chs|k tx]; [|apply leaf].
  apply step.
  induction chs as [|ch chs IH]; constructor; [apply rec | exact IH].
Qed.

Lemma preorder_length (x : Element) :
  forall dist, List.length (preorder x dist) = count_nodes x.
Proof.
  induction x as [tg tx chs IH|k tx] using Element_induction; intros dist;
    [|reflexivity].
  cbn [preorder count_nodes List.length for_children]. f_equal.
  induction IH as [|ch chs Hch _ IHchs]; cbn [concat map list_sum]; [reflexivity|].
  now rewrite List.length_app, Hch, IHchs.
Qed.

Lemma only_elements_cons (dn : nat * Element) (l : list (nat * Element)) :
  only_elements (dn :: l) = is_element (snd dn) && only_elements l.
Proof. reflexivity. Qed.

Lemma only_elements_app (l1 l2 : list (nat * Element)) :
  only_elements (l1 ++ l2) = only_elements l1 && only_elements l2.
Proof. apply List.forallb_app. Qed.

Lemma elements_before_all (l : list (nat * Element)) :
  only_elements l = true -> elements_before l = l.
Proof.
  induction l as [|dn l IH]; [reflexivity|].
  rewrite only_elements_cons. cbn [elements_before]. intros H.
  apply andb_true_iff in H as [Hd Hl]. rewrite Hd. f_equal. now apply IH.
Qed.

Lemma elements_before_app (l1 l2 : list (nat * Element)) :
  elements_before (l1 ++ l2)
  = if only_elements l1 then (l1 ++ elements_before l2)%list
    else elements_before l1.
Proof.
  induction l1 as [|dn l1 IH]; [reflexivity|].
  rewrite only_elements_cons. cbn [app elements_before].
  destruct (is_element (snd dn)); [|reflexivity].
  cbn [andb]. rewrite IH. now destruct (only_elements l1).
Qed.

Lemma only_elements_preorder (x : Element) :
  forall dist, only_elements (preorder x dist) = all_elements x.
Proof.
  induction x as [tg tx chs IH|k tx] using Element_induction; intros dist;
    [|reflexivity].
  cbn [preorder all_elements for_children]. rewrite only_elements_cons.
  cbn [snd]. f_equal.
  induction IH as [|ch chs Hch _ IHchs]; [reflexivity|].
  cbn [map concat forallb]. now rewrite only_elements_app, Hch, IHchs.
Qed.

(** The listing of a tree printed at level [lvl + dist]: the lines of
    the nodes that come before the first node that is not an element,
    and a type error when there is such a node. *)
Lemma xml_to_tree_map (pns ts : bool) (lvl : Z) (x : Element) :
  forall dist,
    xml_to_tree x (lvl + Z.of_nat dist) pns ts
    = (map (line_at lvl pns ts) (elements_before (preorder x dist)),
       if only_elements (preorder x dist) then Exhausted else Raised "TypeError").
Proof.
  induction x as [tg tx chs IH|k tx] using Element_induction; intros dist;
    [|reflexivity].
  cbn [xml_to_tree printed_tag tag_attr preorder for_children].
  rewrite only_elements_cons. cbn [elements_before is_element tag_attr snd map andb].
  replace (lvl + Z.of_nat dist + 1)%Z with (lvl + Z.of_nat (S dist))%Z by lia.
  assert (E : yield_from
                (map (fun ch => xml_to_tree ch (lvl + Z.of_nat (S dist)) pns ts) chs)
              = (map (line_at lvl pns ts)
                     (elements_before
                        (concat (map (fun ch => preorder ch (S dist)) chs))),
                 if only_elements (concat (map (fun ch => preorder ch (S dist)) chs))
                 then Exhausted else Raised "TypeError")).
  { induction IH as [|ch chs Hch _ IHchs]; [reflexivity|].
    cbn [map concat yield_from].
    rewrite (Hch (S dist)), elements_before_app, only_elements_app.
    destruct (only_elements (preorder ch (S dist))) eqn:Hall; cbn [andb].
    - rewrite IHchs, List.map_app, (elements_before_all _ Hall). reflexivity.
    - reflexivity. }
  rewrite E. reflexivity.
Qed.

Lemma tree_line_blanks (lvl : Z) (tg tx : string) :
  (1 <= lvl)%Z ->
  Z.of_nat (PyStr.leading_blanks (tree_line lvl tg tx)) = (2 * (lvl - 1))%Z.
Proof.
  intros H. unfold tree_line, PyStr.mul.
  change ("|--Tag: " ++ tg ++ PyStr.repeat_nat "  " (Z.to_nat (lvl - 1))
          ++ "|  Text: " ++ tx)
    with (String "|" ("--Tag: " ++ tg ++ PyStr.repeat_nat "  " (Z.to_nat (lvl - 1))
          ++ "|  Text: " ++ tx)).
  rewrite leading_blanks_indent. lia.
Qed.

Lemma xml_to_tree_listing (pns ts : bool) (lvl : Z) (x : Element) :
  xml_to_tree x lvl pns ts
  = (map (line_at lvl pns ts) (elements_before (preorder x 0)),
     if all_elements x then Exhausted else Raised "TypeError").
Proof.
  pose proof (xml_to_tree_map pns ts lvl x 0) as E.
  now rewrite Z.add_0_r, only_elements_preorder in E.
Qed.

Lemma elements_before_short (l : list (nat * Element)) :
  only_elements l = false ->
  List.length (elements_before l) < List.length l.
Proof.
  induction l as [|dn l IH]; [discriminate|].
  rewrite only_elements_cons. cbn [elements_before List.length].
  destruct (is_element (snd dn)); cbn [List.length andb]; [|lia].
  intros Ho. specialize (IH Ho). lia.
Qed.

(** C3, as amended.  Printed from level [lvl >= 1], a tree all of whose
    nodes are elements (it holds no comment, processing instruction or
    entity) yields one line per node and then is exhausted; the lines
    follow the nodes in pre-order, and the line of a node at depth
    [depth] (the root being at depth [lvl]) is that node's line and
    starts with exactly [depth - 1] units of two blanks. *)
Theorem xml_to_tree_preorder (x : Element) (lvl : Z) (pns ts : bool) :
  (1 <= lvl)%Z ->
  all_elements x = true ->
  snd (xml_to_tree x lvl pns ts) = Exhausted
  /\ List.length (fst (xml_to_tree x lvl pns ts)) = count_nodes x
  /\ Forall2 (fun (dn : nat * Element) (line : string) =>
                let depth := (lvl + Z.of_nat (fst dn))%Z in
                line = tree_line depth (tree_tag pns (tag (snd dn)))
                                 (tree_text ts (snd dn))
                /\ line = PyStr.mul "  " (depth - 1)
                          ++ "|--Tag: " ++ tree_tag pns (tag (snd dn))
                          ++ PyStr.mul "  " (depth - 1)
                          ++ "|  Text: " ++ tree_text ts (snd dn)
                /\ Z.of_nat (PyStr.leading_blanks line) = (2 * (depth - 1))%Z)
             (preorder x 0) (fst (xml_to_tree x lvl pns ts)).
Proof.
  intros Hlvl Hall. rewrite xml_to_tree_listing. cbn [fst snd].
  rewrite Hall.
  rewrite elements_before_all by (now rewrite only_elements_preorder).
  split; [reflexivity|]. split.
  - now rewrite List.length_map, preorder_length.
  - induction (preorder x 0) as [|dn l IH]; cbn [map]; constructor.
    + cbv zeta. split; [reflexivity | split; [reflexivity|]].
      apply tree_line_blanks. lia.
    + exact IH.
Qed.

Lemma xml_to_tree_preorder_witness :
  (1 <= 1)%Z
  /\ all_elements Sample.config = true
  /\ xml_to_tree Sample.config 1 false true
     = ([ "|--Tag: configure|  Text: ";
          "  |--Tag: router  |  Text: ";
          "    |--Tag: interface    |  Text: lo0";
          "  |--Tag: system  |  Text: " ],
        Exhausted).
Proof.
  split; [lia|]. split; [reflexivity|].
  destruct (xml_to_tree_preorder Sample.config 1 false true) as (E & _ & _);
    [lia | reflexivity |].
  destruct (xml_to_tree Sample.config 1 false true) as [ls e] eqn:El.
  cbn [snd] in E. subst e. f_equal.
  vm_compute in El. now injection El as <-.
Defined.

(** C3, as stated, fails: the comment that the parser keeps in
    [<a><!-- c --><b/></a>] ends the listing with a type error after
    the line of the root, so the three nodes get one line. *)
Lemma xml_to_tree_comment_counterexample :
  count_nodes (Elem "a" None [ContentOnly Comment (Some " c "); Elem "b" None []])
  = 3
  /\ xml_to_tree (Elem "a" None [ContentOnly Comment (Some " c "); Elem "b" None []])
       1 false true
     = (["|--Tag: a|  Text: "], Raised "TypeError")
  /\ xml_to_tree (Elem "a" None [ContentOnly Comment (Some " c "); Elem "b" None []])
       1 true true
     = (["|--Tag: a|  Text: "], Raised "TypeError").
Proof.
  repeat split.
Qed.

(** ** The ancestor walk (C4, C5) *)

Section AncestorWalk.

Context {Node : Type} (d : Doc Node) (preserve_ns : bool).

Let name_of (a : Node) : string := path_name preserve_ns (node_tag d a).

Lemma nth_parent_add (i j : nat) (e : Node) :
  nth_parent d (i + j) e
  = match nth_parent d i e with
    | Some a => nth_parent d j a
    | None => None
    end.
Proof.
  revert e. induction i as [|i IH]; intros e; cbn [Nat.add nth_parent]; [reflexivity|].
  destruct (getparent d e) as [p|]; [apply IH | reflexivity].
Qed.

Lemma nth_parent_none_mono (i j : nat) (e : Node) :
  nth_parent d i e = None -> i <= j -> nth_parent d j e = None.
Proof.
  intros H L. replace j with (i + (j - i)) by lia.
  now rewrite nth_parent_add, H.
Qed.

Lemma depth_is_root (e : Node) : depth_is d e 0 <-> getparent d e = None.
Proof.
  unfold depth_is. cbn [nth_parent]. split.
  - intros (r & [= <-] & H). exact H.
  - intros H. now exists e.
Qed.

Lemma depth_is_step (e p : Node) (D : nat) :
  getparent d e = Some p -> (depth_is d e (S D) <-> depth_is d p D).
Proof.
  intros H. unfold depth_is. cbn [nth_parent]. rewrite H. reflexivity.
Qed.

Lemma depth_is_next_none (e : Node) (D : nat) :
  depth_is d e D -> nth_parent d (S D) e = None.
Proof.
  intros (r & Hr & Hp). replace (S D) with (D + 1) by lia.
  rewrite nth_parent_add, Hr. cbn [nth_parent]. now rewrite Hp.
Qed.

Lemma path_loop_none (fuel : nat) (path : list string) :
  path_loop d preserve_ns fuel None path = Some path.
Proof. now destruct fuel. Qed.

(** The loop started on an ancestor that is [D] links below the root
    pushes the names of that ancestor and of those above it. *)
Lemma path_loop_depth (D : nat) :
  forall (a : Node) (path : list string) (fuel : nat),
    depth_is d a D -> D < fuel ->
    path_loop d preserve_ns fuel (Some a) path
    = Some (rev (map name_of (ancestors d D a)) ++ name_of a :: path)%list.
Proof.
  induction D as [|D IH]; intros a path fuel Hd Hf.
  - apply depth_is_root in Hd.
    destruct fuel as [|fuel]; [lia|]. cbn [path_loop ancestors map rev app].
    rewrite Hd. apply path_loop_none.
  - destruct fuel as [|fuel]; [lia|]. cbn [path_loop ancestors].
    destruct (getparent d a) as [p|] eqn:Hp.
    + apply (depth_is_step a p D Hp) in Hd.
      rewrite (IH p _ fuel Hd) by lia.
      cbn [map rev]. now rewrite <- List.app_assoc.
    + destruct Hd as (r & Hr & _). cbn [nth_parent] in Hr.
      rewrite Hp in Hr. discriminate.
Qed.

Lemma ancestors_length (D : nat) :
  forall e, depth_is d e D -> List.length (ancestors d D e) = D.
Proof.
  induction D as [|D IH]; intros e Hd; cbn [ancestors]; [reflexivity|].
  destruct (getparent d e) as [p|] eqn:Hp.
  - cbn [List.length]. f_equal. apply IH. now apply (depth_is_step e p D Hp).
  - destruct Hd as (r & Hr & _). cbn [nth_parent] in Hr.
    rewrite Hp in Hr. discriminate.
Qed.

Lemma ancestors_nth (D : nat) :
  forall e j, depth_is d e D -> j < D ->
    exists a, nth_parent d (S j) e = Some a
              /\ nth_error (ancestors d D e) j = Some a.
Proof.
  induction D as [|D IH]; intros e j Hd Hj; [lia|].
  cbn [ancestors nth_parent].
  destruct (getparent d e) as [p|] eqn:Hp.
  - apply (depth_is_step e p D Hp) in Hd.
    destruct j as [|j].
    + exists p. split; reflexivity.
    + cbn [nth_error]. destruct (IH p j Hd) as (a & Ha & Hn); [lia|].
      exists a. split; [|exact Hn].
      cbn [nth_parent] in Ha. exact Ha.
  - destruct Hd as (r & Hr & _). cbn [nth_parent] in Hr.
    rewrite Hp in Hr. discriminate.
Qed.

Lemma get_path_to_root_value (e : Node) (D fuel : nat) :
  depth_is d e D -> D <= fuel ->
  get_path_to_root d fuel e preserve_ns
  = Some (rev (map name_of (ancestors d D e))).
Proof.
  intros Hd Hf. unfold get_path_to_root.
  destruct D as [|D].
  - apply depth_is_root in Hd. rewrite Hd. apply path_loop_none.
  - cbn [ancestors]. destruct (getparent d e) as [p|] eqn:Hp.
    + apply (depth_is_step e p D Hp) in Hd.
      rewrite (path_loop_depth D p [] fuel Hd) by lia.
      reflexivity.
    + destruct Hd as (r & Hr & _). cbn [nth_parent] in Hr.
      rewrite Hp in Hr. discriminate.
Qed.

(** A loop that returns has found the root. *)
Lemma path_loop_returns (fuel : nat) :
  forall (a : Node) (path p : list string),
    path_loop d preserve_ns fuel (Some a) path = Some p ->
    exists D, depth_is d a D.
Proof.
  induction fuel as [|fuel IH]; intros a path p H; cbn [path_loop] in H.
  - discriminate.
  - destruct (getparent d a) as [q|] eqn:Hq.
    + destruct (IH q _ p H) as (D & HD).
      exists (S D). now apply (depth_is_step a q D Hq).
    + exists 0. now apply depth_is_root.
Qed.

Lemma get_path_to_root_returns (e : Node) (fuel : nat) (p : list string) :
  get_path_to_root d fuel e preserve_ns = Some p -> exists D, depth_is d e D.
Proof.
  unfold get_path_to_root. intros H.
  destruct (getparent d e) as [q|] eqn:Hq.
  - destruct (path_loop_returns fuel q [] p H) as (D & HD).
    exists (S D). now apply (depth_is_step e q D Hq).
  - exists 0. now apply depth_is_root.
Qed.

(** On a cycle every number of parent links leads somewhere. *)
Lemma cycle_unbounded (a : Node) (n : nat) :
  nth_parent d (S n) a = Some a -> forall m, nth_parent d m a <> None.
Proof.
  intros Hc m Hm.
  assert (L : forall q, nth_parent d (q * S n) a = Some a).
  { induction q as [|q IHq]; [reflexivity|].
    replace (S q * S n) with (S n + q * S n) by lia.
    now rewrite nth_parent_add, Hc. }
  specialize (L m).
  rewrite (nth_parent_none_mono m (m * S n) a Hm) in L by nia.
  discriminate.
Qed.

Lemma cyclic_chain_unbounded (e : Node) :
  cyclic_chain d e -> forall m, nth_parent d m e <> None.
Proof.
  intros (k & n & a & Hk & Hc) m Hm.
  apply (cycle_unbounded a n Hc m).
  pose proof (nth_parent_none_mono m (S k + m) e Hm) as H.
  rewrite nth_parent_add, Hk in H. apply H. lia.
Qed.

Lemma cyclic_chain_no_depth (e : Node) (D : nat) :
  cyclic_chain d e -> ~ depth_is d e D.
Proof.
  intros Hc Hd. apply (cyclic_chain_unbounded e Hc (S D)).
  now apply depth_is_next_none.
Qed.

End AncestorWalk.

(** The entries of the list the walk returns for an element at depth
    [D]. *)
Lemma get_path_to_root_entries {Node : Type} (d : Doc Node) (e : Node)
    (preserve_ns : bool) (D fuel : nat) :
  depth_is d e D -> D <= fuel ->
  exists path,
    get_path_to_root d fuel e preserve_ns = Some path
    /\ List.length path = D
    /\ forall i, i < D ->
         exists a,
           nth_parent d (D - i) e = Some a
           /\ nth_error path i = Some (path_name preserve_ns (node_tag d a)).
Proof.
  intros Hd Hf.
  exists (rev (map (fun a => path_name preserve_ns (node_tag d a))
                   (ancestors d D e))).
  split; [now apply get_path_to_root_value|].
  pose proof (ancestors_length d D e Hd) as HL.
  split; [now rewrite List.length_rev, List.length_map|].
  intros i Hi.
  destruct (ancestors_nth d D e (D - S i) Hd) as (a & Ha & Hn); [lia|].
  exists a. split.
  - replace (D - i) with (S (D - S i)) by lia. exact Ha.
  - rewrite List.nth_error_rev, List.length_map, HL.
    apply Nat.ltb_lt in Hi as Hi'. rewrite Hi'.
    now rewrite List.nth_error_map, Hn.
Qed.

(** In a parsed tree every address has its length as depth. *)
Lemma nth_parent_address (x : Element) (k : nat) :
  forall p, k <= List.length p ->
    nth_parent (doc_of x) k p = Some (firstn (List.length p - k) p).
Proof.
  induction k as [|k IH]; intros p Hk.
  - now rewrite Nat.sub_0_r, List.firstn_all.
  - destruct p as [|i p]; [cbn in Hk; lia|].
    cbn [nth_parent getparent doc_of].
    rewrite List.removelast_firstn_len.
    rewrite IH by (rewrite List.length_firstn; cbn [List.length] in *; lia).
    rewrite List.length_firstn, List.firstn_firstn.
    do 2 f_equal. cbn [List.length] in *. lia.
Qed.

Lemma depth_is_address (x : Element) (p : list nat) :
  depth_is (doc_of x) p (List.length p).
Proof.
  exists []. split; [|reflexivity].
  rewrite nth_parent_address by lia. now rewrite Nat.sub_diag.
Qed.

Lemma subtree_at_prefix (p : list nat) :
  forall x e i, subtree_at x p = Some e ->
    exists a, subtree_at x (firstn i p) = Some a.
Proof.
  induction p as [|j p IH]; intros x e i H.
  - rewrite List.firstn_nil. now exists x.
  - destruct i as [|i]; [now exists x|].
    cbn [firstn subtree_at] in *.
    destruct (nth_error (getchildren x) j) as [ch|]; [|discriminate].
    now apply (IH ch e i).
Qed.

(** X9.  The walk in a parsed tree: from the element at address [p] it
    returns the names of the elements at the proper prefixes of [p],
    the shortest (the root) first. *)
Corollary get_path_to_root_in_tree (x e : Element) (p : list nat)
    (preserve_ns : bool) :
  subtree_at x p = Some e ->
  exists path,
    get_path_to_root (doc_of x) (List.length p) p preserve_ns = Some path
    /\ List.length path = List.length p
    /\ forall i, i < List.length p ->
         exists a,
           subtree_at x (firstn i p) = Some a
           /\ nth_error path i = Some (path_name preserve_ns (tag a)).
Proof.
  intros He.
  destruct (get_path_to_root_entries (doc_of x) p preserve_ns
              (List.length p) (List.length p) (depth_is_address x p) (le_n _))
    as (path & Hp & HL & Hn).
  exists path. split; [exact Hp|]. split; [exact HL|].
  intros i Hi. destruct (Hn i Hi) as (b & Hb & Hi').
  rewrite nth_parent_address in Hb by lia. injection Hb as <-.
  replace (List.length p - (List.length p - i)) with i in Hi' by lia.
  destruct (subtree_at_prefix p x e i He) as (a & Ha).
  exists a. split; [exact Ha|].
  rewrite Hi'. cbn [node_tag doc_of]. now rewrite Ha.
Qed.

(** C4.  The walk from an element that has no parent returns the empty
    list.  The walk from an element at depth [D] returns, once it is
    given [D] iterations, a list of exactly [D] names: entry [i] is the
    name of the ancestor [D - i] parent links above the element, so the
    document root comes first, the immediate parent last, and the
    element itself is not among them. *)
Theorem get_path_to_root_ancestors {Node : Type} (d : Doc Node) (e : Node)
    (preserve_ns : bool) (D fuel : nat) :
  (getparent d e = None -> get_path_to_root d fuel e preserve_ns = Some [])
  /\ (depth_is d e D -> D <= fuel ->
      exists path,
        get_path_to_root d fuel e preserve_ns = Some path
        /\ List.length path = D
        /\ forall i, i < D ->
             exists a,
               nth_parent d (D - i) e = Some a
               /\ nth_error path i
                  = Some (path_name preserve_ns (node_tag d a))).
Proof.
  split.
  - intros H. unfold get_path_to_root. rewrite H. apply path_loop_none.
  - apply get_path_to_root_entries.
Qed.

Lemma get_path_to_root_ancestors_witness :
  getparent (doc_of Sample.config) [] = None
  /\ get_path_to_root (doc_of Sample.config) 0 [] false = Some []
  /\ depth_is (doc_of Sample.config) [0; 0] 2
  /\ get_path_to_root (doc_of Sample.config) 2 [0; 0] false
     = Some ["configure"; "router"].
Proof.
  assert (Hd : depth_is (doc_of Sample.config) [0; 0] 2)
    by (exists []; split; reflexivity).
  destruct (get_path_to_root_ancestors (doc_of Sample.config) [] false 0 0)
    as [Hroot _].
  destruct (get_path_to_root_ancestors (doc_of Sample.config) [0; 0] false 2 2)
    as [_ Hdeep].
  destruct (Hdeep Hd (le_n 2)) as (path & Hp & _ & Hn).
  split; [reflexivity|]. split; [apply Hroot; reflexivity|]. split; [exact Hd|].
  rewrite Hp. vm_compute in Hp. now injection Hp as <-.
Defined.

(** C5, as amended.  The walk returns exactly when the element has a
    depth, that is when finitely many parent links lead from it to an
    element without a parent; on a parent chain that contains a cycle
    the loop is still running after any number of iterations. *)
Theorem get_path_to_root_termination {Node : Type} (d : Doc Node) (e : Node)
    (preserve_ns : bool) :
  (path_terminates d e preserve_ns <-> exists D, depth_is d e D)
  /\ (cyclic_chain d e ->
      forall fuel, get_path_to_root d fuel e preserve_ns = None).
Proof.
  split; [split|].
  - intros (fuel & p & H). now apply (get_path_to_root_returns d preserve_ns e fuel p).
  - intros (D & HD). exists D. eexists.
    now apply (get_path_to_root_value d preserve_ns e D D).
  - intros Hc fuel.
    destruct (get_path_to_root d fuel e preserve_ns) as [p|] eqn:E; [|reflexivity].
    destruct (get_path_to_root_returns d preserve_ns e fuel p E) as (D & HD).
    now destruct (cyclic_chain_no_depth d e D Hc).
Qed.

Lemma loop_doc_cyclic : cyclic_chain Sample.loop_doc 1.
Proof. exists 0, 0, 0. split; reflexivity. Qed.

Lemma get_path_to_root_termination_witness :
  cyclic_chain Sample.loop_doc 1
  /\ get_path_to_root Sample.loop_doc 1000 1 false = None
  /\ path_terminates (doc_of Sample.config) [0; 0] false.
Proof.
  destruct (get_path_to_root_termination Sample.loop_doc 1 false) as [_ Hloop].
  destruct (get_path_to_root_termination (doc_of Sample.config) [0; 0] false)
    as [[_ Hfin] _].
  split; [exact loop_doc_cyclic|]. split.
  - apply Hloop. exact loop_doc_cyclic.
  - apply Hfin. exists 2, []. split; reflexivity.
Defined.

Lemma loop_doc_spins (fuel : nat) :
  forall path, path_loop Sample.loop_doc false fuel (Some 0) path = None.
Proof.
  induction fuel as [|fuel IH]; intros path; [reflexivity|].
  cbn [path_loop]. apply IH.
Qed.

(** C5, as stated, fails: in a document where node 0 is its own parent
    the walk from node 1 never returns. *)
Lemma get_path_to_root_cycle_counterexample :
  cyclic_chain Sample.loop_doc 1
  /\ ~ path_terminates Sample.loop_doc 1 false.
Proof.
  split; [exact loop_doc_cyclic|].
  intros (fuel & p & H). unfold get_path_to_root in H.
  cbn [getparent Sample.loop_doc] in H.
  now rewrite loop_doc_spins in H.
Qed.

(** ** The configuration fetcher (C1, C2, C9, C10) *)

Section Fetcher.

Context `{Platform}.

(** Whatever the flags, a fetch sends one request, the one
    [request_for] describes. *)
Lemma fetch_log (nfd : Manager) (f d : string) (rbt pprn : bool) (w : World) :
  rpc_log (snd (get_sros_elem_config nfd f d rbt pprn w))
  = (rpc_log w ++ [request_for f d])%list.
Proof.
  unfold get_sros_elem_config, request_for, bind, get_config.
  destruct (str_truthy f); cbn -[py_add PyStr.mul py_len];
    (destruct (answer nfd (rpc_log w) _) as [reply|e]; [|reflexivity]);
    destruct pprn; cbn; try reflexivity;
    now destruct (fromstring rbt (data_xml reply)).
Qed.

(** Without [pprn] a fetch returns what the parser returns for the
    payload, or raises what the session raised. *)
Lemma fetch_quiet (nfd : Manager) (f d : string) (rbt : bool) (w : World) :
  fst (get_sros_elem_config nfd f d rbt false w)
  = match answer nfd (rpc_log w) (request_for f d) with
    | Return reply => fromstring rbt (data_xml reply)
    | Raise e => Raise e
    end.
Proof.
  unfold get_sros_elem_config, request_for, bind, get_config.
  destruct (str_truthy f); cbn;
    now destruct (answer nfd (rpc_log w) _) as [reply|e].
Qed.

(** With [pprn] a fetch raises: what the session raised, or the type
    error of the footer line. *)
Lemma fetch_pprn (nfd : Manager) (f d : string) (rbt : bool) (w : World) :
  fst (get_sros_elem_config nfd f d rbt true w)
  = match answer nfd (rpc_log w) (request_for f d) with
    | Return _ => Raise str_plus_int
    | Raise e => Raise e
    end.
Proof.
  unfold get_sros_elem_config, request_for, bind, get_config.
  destruct (str_truthy f); cbn;
    now destruct (answer nfd (rpc_log w) _) as [reply|e].
Qed.

End Fetcher.

(** C1.  Called with a non-empty filter [f] and a datastore [d], the
    fetcher invokes [get_config] exactly once, whatever the flags and
    whatever the session answers: the log of requests grows by the one
    request [(source = d, filter = ("subtree", f))]. *)
Theorem fetch_sends_given_filter `{Platform} (nfd : Manager) (f d : string)
    (rbt pprn : bool) (w : World) :
  f <> "" ->
  rpc_log (snd (get_sros_elem_config nfd f d rbt pprn w))
  = (rpc_log w ++ [ {| rpc_source := d; rpc_filter := ("subtree", f) |} ])%list.
Proof.
  intros Hf. rewrite fetch_log. unfold request_for.
  destruct f as [|c f]; [contradiction | reflexivity].
Qed.

Lemma fetch_sends_given_filter_witness :
  "<interface/>" <> ""
  /\ rpc_log (snd (get_sros_elem_config (H := Sample.stub_platform)
                     (Sample.session Sample.payload) "<interface/>" "candidate"
                     false false Sample.empty_world))
     = [ {| rpc_source := "candidate";
            rpc_filter := ("subtree", "<interface/>") |} ].
Proof.
  assert (Hne : "<interface/>" <> "") by discriminate.
  split; [exact Hne|].
  exact (fetch_sends_given_filter (H := Sample.stub_platform)
           (Sample.session Sample.payload) "<interface/>" "candidate"
           false false Sample.empty_world Hne).
Defined.

(** C2, as amended.  Called with the empty filter, the fetcher invokes
    [get_config] once, with the datastore and the built-in filter; that
    filter is the literal of the specification laid out on two indented
    lines, and equals it once the line feeds and the indentation are
    taken out. *)
Theorem fetch_sends_default_filter `{Platform} (nfd : Manager) (d : string)
    (rbt pprn : bool) (w : World) :
  rpc_log (snd (get_sros_elem_config nfd "" d rbt pprn w))
  = (rpc_log w
     ++ [ {| rpc_source := d; rpc_filter := ("subtree", def_xml_filter) |} ])%list
  /\ unindent false def_xml_filter = spec_default_filter.
Proof.
  split; [apply fetch_log | reflexivity].
Qed.

(** C2, as stated, fails: the filter sent is not the literal of the
    specification, it starts with a line feed and fourteen blanks. *)
Lemma fetch_default_filter_counterexample :
  rpc_log (snd (get_sros_elem_config (H := Sample.stub_platform)
                  (Sample.session Sample.payload) "" "running"
                  false false Sample.empty_world))
  = [ {| rpc_source := "running"; rpc_filter := ("subtree", def_xml_filter) |} ]
  /\ PyStr.starts_with (PyStr.chr PyStr.LF ++ "              <configure")
                       def_xml_filter = true
  /\ def_xml_filter <> spec_default_filter.
Proof.
  split; [reflexivity|]. split; [reflexivity|]. discriminate.
Qed.

(** C9, as amended.  When the session answers and the parser rejects the
    payload, the fetcher (without [pprn]) raises the parser's own
    exception, unchanged: it adds neither the datastore nor the filter
    to it. *)
Theorem fetch_parse_failure `{Platform} (nfd : Manager) (f d : string)
    (rbt : bool) (w : World) (reply : Reply) (e : exn) :
  answer nfd (rpc_log w) (request_for f d) = Return reply ->
  fromstring rbt (data_xml reply) = Raise e ->
  fst (get_sros_elem_config nfd f d rbt false w) = Raise e.
Proof.
  intros Ha Hp. now rewrite fetch_quiet, Ha.
Qed.

Lemma fetch_parse_failure_witness :
  fst (get_sros_elem_config (H := Sample.stub_platform)
         (Sample.session "") "" "running" true false Sample.empty_world)
  = Raise (Exn "XMLSyntaxError" "Document is empty, line 1, column 1").
Proof.
  apply (fetch_parse_failure (H := Sample.stub_platform)
           (Sample.session "") "" "running" true
           Sample.empty_world {| data_xml := "" |}); reflexivity.
Defined.

(** C9, as stated, fails: with a parser that rejects the payload, the
    exception the fetcher raises is the parser's, and it names neither
    the datastore nor the filter of the request. *)
Lemma fetch_parse_failure_counterexample :
  exists e,
    fst (get_sros_elem_config (H := Sample.stub_platform)
           (Sample.session "") "<interface/>" "candidate"
           false false Sample.empty_world) = Raise e
    /\ exn_class e = "XMLSyntaxError"
    /\ names e "candidate" = false
    /\ names e "<interface/>" = false.
Proof.
  eexists. split; [reflexivity|]. repeat split.
Qed.

(** C10 fails on the code.  On the same session, filter, datastore and
    payload, the fetch without [pprn] returns the parsed tree, and the
    fetch with [pprn] raises a type error after it has printed the
    banner and the payload: its footer line adds an integer to a
    string. *)
Theorem fetch_pprn_diverges :
  fst (get_sros_elem_config (H := Sample.stub_platform)
         (Sample.session Sample.payload) "" default_source false false
         Sample.empty_world)
  = Return (Some Sample.parsed_payload)
  /\ get_sros_elem_config (H := Sample.stub_platform)
       (Sample.session Sample.payload) "" default_source false true
       Sample.empty_world
     = (Raise str_plus_int,
        {| stdout :=
             "==================== Retrieved SROS XML config ===================="
             ++ PyStr.chr PyStr.LF ++ Sample.payload ++ PyStr.chr PyStr.LF;
           fs := fs Sample.empty_world;
           rpc_log := [request_for "" default_source] |}).
Proof.
  split; reflexivity.
Qed.

(** ** The filter loader (C8) *)

(** C8, as amended.  When the file [<fdir>/<fname>.xml] is missing or
    unreadable, the loader prints "Can't load filter <fname>" on the
    standard output and raises a [ValueError] whose message names the
    directory [fdir]; the message does not depend on [fname]. *)
Theorem load_xml_filter_unavailable `{Platform} (fname fdir : string) (w : World) :
  filter_unavailable w fname fdir ->
  let e := ValueError ("Please directory " ++ fdir
                       ++ " exist and intended filter present in the directory.") in
  load_xml_filter fname fdir w
  = (Raise e,
     {| stdout := stdout w ++ ("Can't load filter " ++ fname) ++ PyStr.chr PyStr.LF;
        fs := fs w;
        rpc_log := rpc_log w |})
  /\ names e fdir = true.
Proof.
  intros Hu. cbv zeta. split.
  - unfold filter_unavailable in Hu.
    unfold load_xml_filter, bind, path_exists, access_r, ret.
    destruct (fs w (abspath (fdir ++ "/" ++ fname ++ ".xml"))) as [f|] eqn:E;
      cbv beta iota; [rewrite E, Hu|]; reflexivity.
  - unfold names, ValueError. cbn [exn_msg]. apply contains_middle.
Qed.

Lemma load_xml_filter_unavailable_witness :
  filter_unavailable (H := Sample.stub_platform)
    Sample.empty_world "interface" default_fdir
  /\ fst (load_xml_filter (H := Sample.stub_platform)
            "interface" default_fdir Sample.empty_world)
     = Raise (ValueError
                "Please directory sros_nf_filters exist and intended filter present in the directory.").
Proof.
  assert (Hu : filter_unavailable (H := Sample.stub_platform)
                 Sample.empty_world "interface" default_fdir) by exact I.
  split; [exact Hu|].
  destruct (load_xml_filter_unavailable (H := Sample.stub_platform)
              "interface" default_fdir Sample.empty_world Hu) as [E _].
  rewrite E. reflexivity.
Defined.

(** C8, as stated, fails: for the missing filter "interface" the
    message of the error names the directory and not the file. *)
Lemma load_xml_filter_counterexample :
  filter_unavailable (H := Sample.stub_platform)
    Sample.empty_world "interface" default_fdir
  /\ exists e,
       fst (load_xml_filter (H := Sample.stub_platform)
              "interface" default_fdir Sample.empty_world) = Raise e
       /\ names e default_fdir = true
       /\ names e "interface" = false
       /\ names e "interface.xml" = false.
Proof.
  split; [exact I|]. eexists. split; [reflexivity|]. repeat split.
Qed.

(** ** The serializer wrapper *)

(** X17.  [get_xml_str] returns what lxml's serializer gives for the element;
    [pprn] only adds the pretty-printed string to the standard output. *)
Lemma get_xml_str_value `{Platform} (e : Element) (pprn : bool) (w : World) :
  get_xml_str e pprn w
  = (Return (tostring e),
     {| stdout := if pprn
                  then stdout w ++ pformat (tostring e) ++ PyStr.chr PyStr.LF
                  else stdout w;
        fs := fs w;
        rpc_log := rpc_log w |}).
Proof.
  unfold get_xml_str, bind, print, print_end, ret.
  destruct pprn, w; reflexivity.
Qed.

(* ================================================================== *)
(** * Further properties *)

(** ** The substitution, line by line *)

Module ReLines.
Import Re.

Lemma line_head_no_lf (s : string) : PyStr.has_char PyStr.LF (line_head s) = false.
Proof.
  induction s as [|c s IH]; [reflexivity|].
  cbn [line_head]. destruct (is_dot c) eqn:E; [|reflexivity].
  cbn [PyStr.has_char]. rewrite IH, orb_false_r.
  unfold is_dot in E. rewrite Ascii.eqb_sym. now destruct (Ascii.eqb c PyStr.LF).
Qed.

Lemma no_lf_line (t : string) :
  PyStr.has_char PyStr.LF t = false -> line_head t = t /\ line_rest t = "".
Proof.
  induction t as [|c t IH]; [now split|].
  cbn [PyStr.has_char line_head line_rest]. intros H.
  apply orb_false_iff in H as [Hc Ht]. destruct (IH Ht) as [E1 E2].
  unfold is_dot. rewrite Ascii.eqb_sym, Hc. cbn [negb]. now rewrite E1, E2.
Qed.

Lemma no_lf_line_app (t b : string) :
  PyStr.has_char PyStr.LF t = false ->
  line_head (t ++ String PyStr.LF b) = t
  /\ line_rest (t ++ String PyStr.LF b) = String PyStr.LF b.
Proof.
  induction t as [|c t IH]; [now split|].
  cbn [PyStr.has_char append line_head line_rest]. intros H.
  apply orb_false_iff in H as [Hc Ht]. destruct (IH Ht) as [E1 E2].
  unfold is_dot. rewrite Ascii.eqb_sym, Hc. cbn [negb]. now rewrite E1, E2.
Qed.

Lemma after_last_close_no_close (l : string) :
  PyStr.has_char "}" (after_last_close l) = false.
Proof.
  induction l as [|c l IH]; [reflexivity|].
  cbn [after_last_close]. destruct (PyStr.has_char "}" l) eqn:E; [exact IH|].
  destruct (Ascii.eqb "}" c) eqn:Ec; [exact E|].
  cbn [PyStr.has_char]. now rewrite Ec, E.
Qed.

Lemma after_last_close_chars (x : ascii) (l : string) :
  PyStr.has_char x l = false -> PyStr.has_char x (after_last_close l) = false.
Proof.
  induction l as [|c l IH]; [easy|].
  cbn [PyStr.has_char after_last_close]. intros H.
  apply orb_false_iff in H as [Hc Hl].
  destruct (PyStr.has_char "}" l); [now apply IH|].
  destruct (Ascii.eqb "}" c); [exact Hl|].
  cbn [PyStr.has_char]. now rewrite Hc, Hl.
Qed.

Lemma after_last_close_length (l : string) :
  String.length (after_last_close l) <= String.length l.
Proof.
  induction l as [|c l IH]; [reflexivity|].
  cbn [after_last_close String.length].
  destruct (PyStr.has_char "}" l); [lia|].
  destruct (Ascii.eqb "}" c); cbn [String.length]; lia.
Qed.

Lemma line_length (s : string) :
  String.length (line_head s) + String.length (line_rest s) = String.length s.
Proof.
  rewrite <- (ReFacts.line_split s) at 3. now rewrite length_append.
Qed.

(** Where the first dot-star of the pattern stops, on any input. *)
Lemma dot_star_close (s : string) :
  dot_star s close_then_group
  = if PyStr.has_char "}" (line_head s)
    then Some (line_rest s, Some (after_last_close (line_head s)))
    else None.
Proof.
  induction s as [|c s IH]; [reflexivity|].
  cbn [dot_star line_head line_rest]. destruct (is_dot c) eqn:Ed.
  - rewrite IH. cbn [PyStr.has_char after_last_close].
    destruct (PyStr.has_char "}" (line_head s)) eqn:E.
    + now rewrite orb_true_r.
    + rewrite orb_false_r. destruct (Ascii.eqb "}" c) eqn:Ec.
      * apply Ascii.eqb_eq in Ec. subst c.
        now rewrite ReFacts.close_then_group_brace.
      * now rewrite ReFacts.close_then_group_other.
  - cbn [PyStr.has_char]. apply ReFacts.close_then_group_other.
    unfold is_dot in Ed. destruct (Ascii.eqb c PyStr.LF) eqn:E; [|discriminate].
    apply Ascii.eqb_eq in E. now subst c.
Qed.

(** The scan does not depend on the fuel once there is enough of it. *)
Lemma sub_from_fuel (r : regex) (fuel : nat) :
  forall s fuel', String.length s < fuel -> String.length s < fuel' ->
    sub_from fuel r s = sub_from fuel' r s.
Proof.
  induction fuel as [|fuel IH]; intros s fuel' H H'; [lia|].
  destruct fuel' as [|fuel']; [lia|]. cbn [sub_from].
  destruct (match_here r s) as [[rest cap]|].
  - destruct (String.length rest <? String.length s)%nat eqn:E.
    + apply Nat.ltb_lt in E. now rewrite (IH rest fuel') by lia.
    + destruct s as [|c s]; [reflexivity|].
      cbn [String.length] in *. now rewrite (IH s fuel') by lia.
  - destruct s as [|c s]; [reflexivity|].
    cbn [String.length] in *. now rewrite (IH s fuel') by lia.
Qed.

Lemma sub_from_S (r : regex) (fuel : nat) (s : string) :
  sub_from (S fuel) r s
  = match match_here r s with
    | Some (rest, cap) =>
        if (String.length rest <? String.length s)%nat then
          option_map (append (expand1 cap)) (sub_from fuel r rest)
        else
          match s with
          | "" => Some (expand1 cap)
          | String c s' =>
              option_map (fun t => expand1 cap ++ String c t) (sub_from fuel r s')
          end
    | None =>
        match s with
        | "" => Some ""
        | String c s' => option_map (String c) (sub_from fuel r s')
        end
    end.
Proof. reflexivity. Qed.

Lemma sub_from_strip_ns (s : string) (fuel : nat) :
  String.length s < fuel -> sub_from fuel ns_pattern s = Some (strip_ns s).
Proof.
  intros H. rewrite (sub_from_fuel ns_pattern fuel s (S (String.length s))) by lia.
  apply ReFacts.sub1_spec.
Qed.

End ReLines.

(** The three equations of the substitution. *)
Lemma strip_ns_empty : strip_ns "" = "".
Proof. reflexivity. Qed.

Lemma strip_ns_copy (c : ascii) (t : string) :
  Ascii.eqb "{" c && PyStr.has_char "}" (Re.line_head t) = false ->
  strip_ns (String c t) = String c (strip_ns t).
Proof.
  intros H.
  pose proof (ReFacts.sub1_spec Re.ns_pattern (String c t)) as E.
  fold (strip_ns (String c t)) in E.
  rewrite ReLines.sub_from_S in E.
  rewrite ReFacts.match_here_ns, ReLines.dot_star_close in E.
  assert (N : (if Ascii.eqb "{" c
               then if PyStr.has_char "}" (Re.line_head t)
                    then Some (Re.line_rest t,
                               Some (after_last_close (Re.line_head t)))
                    else None
               else None) = None).
  { destruct (Ascii.eqb "{" c); [|reflexivity].
    cbn [andb] in H. now rewrite H. }
  rewrite N in E. cbv beta iota in E.
  rewrite (ReLines.sub_from_strip_ns t) in E by (cbn [String.length]; lia).
  cbn [option_map] in E. now injection E as <-.
Qed.

Lemma strip_ns_group (t : string) :
  PyStr.has_char "}" (Re.line_head t) = true ->
  strip_ns (String "{" t)
  = after_last_close (Re.line_head t) ++ strip_ns (Re.line_rest t).
Proof.
  intros H.
  pose proof (ReFacts.sub1_spec Re.ns_pattern (String "{" t)) as E.
  fold (strip_ns (String "{" t)) in E.
  rewrite ReLines.sub_from_S in E.
  rewrite ReFacts.match_here_ns, ReLines.dot_star_close, H in E.
  rewrite Ascii.eqb_refl in E.
  pose proof (ReFacts.line_rest_length t) as L.
  assert (L' : (String.length (Re.line_rest t) <? String.length (String "{" t))%nat
               = true)
    by (apply Nat.ltb_lt; cbn [String.length]; lia).
  cbv beta iota in E. rewrite L' in E.
  rewrite (ReLines.sub_from_strip_ns (Re.line_rest t)) in E
    by (cbn [String.length]; lia).
  cbn [option_map Re.expand1] in E. now injection E as <-.
Qed.

(** Induction along the scan: a character is copied, or a group is
    replaced and the scan resumes at the end of the line. *)
Lemma strip_ns_scan (P : string -> Prop) :
  P "" ->
  (forall c t,
      Ascii.eqb "{" c && PyStr.has_char "}" (Re.line_head t) = false ->
      P t -> P (String c t)) ->
  (forall t,
      PyStr.has_char "}" (Re.line_head t) = true ->
      P (Re.line_rest t) -> P (String "{" t)) ->
  forall s, P s.
Proof.
  intros H0 Hcopy Hgroup s.
  remember (String.length s) as n eqn:En.
  revert s En. induction n as [n IH] using lt_wf_ind. intros s En.
  destruct s as [|c t]; [exact H0|].
  cbn [String.length] in En.
  destruct (Ascii.eqb "{" c && PyStr.has_char "}" (Re.line_head t)) eqn:E.
  - apply andb_true_iff in E as [Ec Ht]. apply Ascii.eqb_eq in Ec. subst c.
    apply Hgroup; [exact Ht|].
    pose proof (ReFacts.line_rest_length t) as L.
    apply (IH (String.length (Re.line_rest t))); [lia | reflexivity].
  - apply Hcopy; [exact E|]. apply (IH (String.length t)); [lia | reflexivity].
Qed.

Lemma strip_ns_length_le (s : string) :
  String.length (strip_ns s) <= String.length s.
Proof.
  induction s as [|c t Hc IH|t Ht IH] using strip_ns_scan.
  - reflexivity.
  - rewrite (strip_ns_copy c t Hc). cbn [String.length]. lia.
  - rewrite (strip_ns_group t Ht), length_append. cbn [String.length].
    pose proof (ReLines.after_last_close_length (Re.line_head t)).
    pose proof (ReLines.line_length t). lia.
Qed.

Lemma strip_ns_no_group (s : string) : has_group s = false -> strip_ns s = s.
Proof.
  induction s as [|c t IH]; [reflexivity|].
  cbn [has_group]. intros H. apply orb_false_iff in H as [Hc Ht].
  now rewrite (strip_ns_copy c t Hc), (IH Ht).
Qed.

Lemma strip_ns_group_shrinks (s : string) :
  has_group s = true -> String.length (strip_ns s) < String.length s.
Proof.
  induction s as [|c t IH]; [discriminate|].
  cbn [has_group]. intros H.
  destruct (Ascii.eqb "{" c && PyStr.has_char "}" (Re.line_head t)) eqn:E.
  - apply andb_true_iff in E as [Ec Ht]. apply Ascii.eqb_eq in Ec. subst c.
    rewrite (strip_ns_group t Ht), length_append. cbn [String.length].
    pose proof (ReLines.after_last_close_length (Re.line_head t)).
    pose proof (strip_ns_length_le (Re.line_rest t)).
    pose proof (ReLines.line_length t). lia.
  - cbn [orb] in H. rewrite (strip_ns_copy c t E). cbn [String.length].
    specialize (IH H). lia.
Qed.

(** A first line without a closing brace is copied. *)
Lemma strip_ns_first_line (s : string) :
  PyStr.has_char "}" (Re.line_head s) = false ->
  Re.line_head (strip_ns s) = Re.line_head s.
Proof.
  induction s as [|c t IH]; [reflexivity|].
  cbn [Re.line_head]. destruct (Re.is_dot c) eqn:Ed.
  - cbn [PyStr.has_char]. intros H. apply orb_false_iff in H as [_ Ht].
    rewrite (strip_ns_copy c t) by (rewrite Ht; apply andb_false_r).
    cbn [Re.line_head]. now rewrite Ed, (IH Ht).
  - intros _. rewrite (strip_ns_copy c t).
    + cbn [Re.line_head]. now rewrite Ed.
    + unfold Re.is_dot in Ed. destruct (Ascii.eqb c PyStr.LF) eqn:E; [|discriminate].
      apply Ascii.eqb_eq in E. now subst c.
Qed.

Lemma line_rest_head (s : string) : Re.line_head (Re.line_rest s) = "".
Proof.
  induction s as [|c t IH]; [reflexivity|].
  cbn [Re.line_rest]. destruct (Re.is_dot c) eqn:E; [exact IH|].
  cbn [Re.line_head]. now rewrite E.
Qed.

Lemma line_head_app (a u : string) :
  PyStr.has_char PyStr.LF a = false ->
  Re.line_head (a ++ u) = a ++ Re.line_head u.
Proof.
  induction a as [|c a IH]; [reflexivity|].
  cbn [PyStr.has_char append Re.line_head]. intros H.
  apply orb_false_iff in H as [Hc Ha].
  unfold Re.is_dot. rewrite Ascii.eqb_sym, Hc. cbn [negb]. now rewrite (IH Ha).
Qed.

Lemma has_group_app (a u : string) :
  PyStr.has_char "}" a = false ->
  PyStr.has_char PyStr.LF a = false ->
  Re.line_head u = "" ->
  has_group u = false ->
  has_group (a ++ u) = false.
Proof.
  intros Hc Hl Hu Hg. induction a as [|c a IH]; [exact Hg|].
  cbn [PyStr.has_char] in Hc, Hl.
  apply orb_false_iff in Hc as [_ Hc]. apply orb_false_iff in Hl as [_ Hl].
  cbn [append has_group]. rewrite (IH Hc Hl), orb_false_r.
  rewrite (line_head_app a u Hl), Hu.
  assert (E : a ++ "" = a) by (clear; induction a as [|x a IH]; cbn; congruence).
  rewrite E, Hc. apply andb_false_r.
Qed.

(** No group is left after the substitution. *)
Lemma strip_ns_clean (s : string) : has_group (strip_ns s) = false.
Proof.
  induction s as [|c t Hc IH|t Ht IH] using strip_ns_scan.
  - reflexivity.
  - rewrite (strip_ns_copy c t Hc). cbn [has_group]. rewrite IH, orb_false_r.
    destruct (Ascii.eqb "{" c); [|reflexivity]. cbn [andb] in *.
    now rewrite (strip_ns_first_line t Hc).
  - rewrite (strip_ns_group t Ht). apply has_group_app.
    + apply ReLines.after_last_close_no_close.
    + apply ReLines.after_last_close_chars, ReLines.line_head_no_lf.
    + rewrite strip_ns_first_line; rewrite line_rest_head; reflexivity.
    + exact IH.
Qed.

Lemma strip_ns_line_break (a b : string) :
  PyStr.has_char PyStr.LF a = false ->
  strip_ns (a ++ String PyStr.LF b) = strip_ns a ++ String PyStr.LF (strip_ns b).
Proof.
  induction a as [|c t Hc IH|t Ht IH] using strip_ns_scan; intros Hl.
  - cbn [append]. now rewrite strip_ns_copy.
  - cbn [PyStr.has_char] in Hl. apply orb_false_iff in Hl as [_ Hl].
    destruct (ReLines.no_lf_line t Hl) as [E1 _].
    destruct (ReLines.no_lf_line_app t b Hl) as [E2 _].
    cbn [append]. rewrite (strip_ns_copy c (t ++ String PyStr.LF b)).
    + now rewrite (strip_ns_copy c t Hc), (IH Hl).
    + rewrite E2. now rewrite E1 in Hc.
  - cbn [PyStr.has_char] in Hl. apply orb_false_iff in Hl as [_ Hl].
    destruct (ReLines.no_lf_line t Hl) as [E1 E1'].
    destruct (ReLines.no_lf_line_app t b Hl) as [E2 E2'].
    cbn [append]. rewrite (strip_ns_group (t ++ String PyStr.LF b)).
    + rewrite (strip_ns_group t Ht), E1, E1', E2, E2', strip_ns_empty.
      rewrite (strip_ns_copy PyStr.LF b) by reflexivity.
      assert (E : forall x, x ++ "" = x)
        by (clear; intros x; induction x as [|y x IH]; cbn; congruence).
      now rewrite E.
    + rewrite E2. now rewrite E1 in Ht.
Qed.

(** ** The namespace substitution: fixed points, idempotence, lines *)

(** X1.  The substitution leaves a tag as it is exactly when the tag holds
    no group, that is no opening brace with a closing brace after it on
    the same line; otherwise the result is strictly shorter. *)
Theorem strip_ns_fixed_iff (t : string) :
  (strip_ns t = t <-> has_group t = false)
  /\ (has_group t = true -> String.length (strip_ns t) < String.length t).
Proof.
  split; [split|].
  - intros E. destruct (has_group t) eqn:G; [|reflexivity].
    pose proof (strip_ns_group_shrinks t G) as L. rewrite E in L. lia.
  - apply strip_ns_no_group.
  - apply strip_ns_group_shrinks.
Qed.

Lemma strip_ns_fixed_iff_witness :
  has_group "a{b}c" = true
  /\ String.length (strip_ns "a{b}c") < String.length "a{b}c"
  /\ has_group "}a{" = false
  /\ strip_ns "}a{" = "}a{".
Proof.
  destruct (strip_ns_fixed_iff "a{b}c") as [_ Hs].
  destruct (strip_ns_fixed_iff "}a{") as [[_ Hf] _].
  split; [reflexivity|]. split; [apply Hs; reflexivity|].
  split; [reflexivity|]. apply Hf. reflexivity.
Defined.

(** X2.  The substitution is idempotent: its result holds no group, and a
    second pass changes nothing. *)
Theorem strip_ns_idempotent (t : string) :
  has_group (strip_ns t) = false /\ strip_ns (strip_ns t) = strip_ns t.
Proof.
  split; [apply strip_ns_clean|]. apply strip_ns_no_group, strip_ns_clean.
Qed.

(** X3.  The substitution never makes a tag longer. *)
Theorem strip_ns_length (t : string) :
  String.length (strip_ns t) <= String.length t.
Proof. apply strip_ns_length_le. Qed.

(** X4.  The substitution works line by line: no match crosses a line feed. *)
Theorem strip_ns_lines (a b : string) :
  PyStr.has_char PyStr.LF a = false ->
  strip_ns (a ++ String PyStr.LF b) = strip_ns a ++ String PyStr.LF (strip_ns b).
Proof. apply strip_ns_line_break. Qed.

Lemma strip_ns_lines_witness :
  strip_ns ("{u}a" ++ String PyStr.LF "{v}b") = "a" ++ String PyStr.LF "b".
Proof.
  rewrite (strip_ns_lines "{u}a" "{v}b"); reflexivity.
Defined.

(** ** The text the tree printer shows *)

Lemma rstrip_no_trailing_space (s : string) :
  ends_with_space (PyStr.rstrip s) = false.
Proof.
  induction s as [|c s IH]; [reflexivity|].
  cbn [PyStr.rstrip]. destruct (PyStr.rstrip s) as [|x r] eqn:E.
  - destruct (PyStr.isspace c) eqn:Ec; [reflexivity|]. cbn. exact Ec.
  - exact IH.
Qed.

Lemma rstrip_keeps_head (c : ascii) (s : string) :
  PyStr.isspace c = false -> exists r, PyStr.rstrip (String c s) = String c r.
Proof.
  intros Hc. cbn [PyStr.rstrip]. destruct (PyStr.rstrip s) as [|x r].
  - rewrite Hc. now exists "".
  - now exists (String x r).
Qed.

Lemma lstrip_head (s : string) :
  PyStr.lstrip s = ""
  \/ exists c t, PyStr.lstrip s = String c t /\ PyStr.isspace c = false.
Proof.
  induction s as [|c s IH]; [now left|].
  cbn [PyStr.lstrip]. destruct (PyStr.isspace c) eqn:E; [exact IH|].
  right. now exists c, s.
Qed.

Lemma strip_no_outer_space (s : string) : outer_space (PyStr.strip s) = false.
Proof.
  unfold PyStr.strip. destruct (lstrip_head s) as [E|(c & t & E & Hc)]; rewrite E.
  - reflexivity.
  - destruct (rstrip_keeps_head c t Hc) as (r & Er).
    pose proof (rstrip_no_trailing_space (String c t)) as Hr.
    rewrite Er in *. unfold outer_space. now rewrite Hc, Hr.
Qed.

Lemma strip_all_space (s : string) : all_space s = true -> PyStr.strip s = "".
Proof.
  unfold PyStr.strip. induction s as [|c s IH]; [reflexivity|].
  cbn [all_space PyStr.lstrip]. intros H. apply andb_true_iff in H as [Hc Hs].
  rewrite Hc. now apply IH.
Qed.

(** X5.  The text of a line.  With [text_strip] it never starts or ends with
    white space, and a text made of white space only is shown as the
    empty string; without [text_strip] it is the text as it is; an
    element without text, or with an empty one, shows the empty
    string. *)
Theorem tree_text_cases (x : Element) :
  outer_space (tree_text true x) = false
  /\ (all_space (text_str (text x)) = true -> tree_text true x = "")
  /\ tree_text false x = text_str (text x)
  /\ (forall ts, text x = None \/ text x = Some "" -> tree_text ts x = "").
Proof.
  unfold tree_text. split; [| split; [| split]].
  - cbn [andb]. destruct (text_truthy (text x)); [|reflexivity].
    apply strip_no_outer_space.
  - intros H. cbn [andb]. destruct (text_truthy (text x)); [|reflexivity].
    now apply strip_all_space.
  - cbn [andb]. destruct (text x) as [[|c s]|]; reflexivity.
  - intros ts [E|E]; rewrite E; now destruct ts.
Qed.

Lemma tree_text_cases_witness :
  all_space (text_str (text (Elem "a" (Some "   ") []))) = true
  /\ tree_text true (Elem "a" (Some "   ") []) = ""
  /\ tree_text true (Elem "a" None []) = "".
Proof.
  destruct (tree_text_cases (Elem "a" (Some "   ") [])) as (_ & Hs & _ & _).
  destruct (tree_text_cases (Elem "a" None [])) as (_ & _ & _ & Hn).
  split; [reflexivity|]. split; [apply Hs; reflexivity|].
  apply Hn. now left.
Defined.

(** ** The tree printer at any level, and on subtrees *)

Lemma tree_line_blanks_any (lvl : Z) (tg tx : string) :
  PyStr.leading_blanks (tree_line lvl tg tx) = 2 * Z.to_nat (lvl - 1).
Proof.
  unfold tree_line, PyStr.mul.
  change ("|--Tag: " ++ tg ++ PyStr.repeat_nat "  " (Z.to_nat (lvl - 1))
          ++ "|  Text: " ++ tx)
    with (String "|" ("--Tag: " ++ tg ++ PyStr.repeat_nat "  " (Z.to_nat (lvl - 1))
          ++ "|  Text: " ++ tx)).
  apply leading_blanks_indent.
Qed.

(** X6.  Whatever the starting level, also zero or negative, and
    whatever the tree: the lines the printer yields are, in order, the
    lines of the nodes that come in pre-order before the first node
    that is not an element, each with its tag and text, and the line of
    a node at depth [depth] starts with [max 0 (depth - 1)] units of
    two blanks, so that the nodes of depth at most one are flush left.
    A tree of elements only yields one line per node and is exhausted;
    a tree that holds a comment, a processing instruction or an entity
    yields fewer lines than it has nodes and ends with a type error. *)
Theorem xml_to_tree_any_level (x : Element) (lvl : Z) (pns ts : bool) :
  Forall2 (fun (dn : nat * Element) (line : string) =>
             line = tree_line (lvl + Z.of_nat (fst dn))
                              (tree_tag pns (tag (snd dn))) (tree_text ts (snd dn))
             /\ Z.of_nat (PyStr.leading_blanks line)
                = (2 * Z.max 0 (lvl + Z.of_nat (fst dn) - 1))%Z)
          (elements_before (preorder x 0)) (fst (xml_to_tree x lvl pns ts))
  /\ snd (xml_to_tree x lvl pns ts)
     = (if all_elements x then Exhausted else Raised "TypeError")
  /\ (all_elements x = true ->
      elements_before (preorder x 0) = preorder x 0
      /\ List.length (fst (xml_to_tree x lvl pns ts)) = count_nodes x)
  /\ (all_elements x = false ->
      List.length (fst (xml_to_tree x lvl pns ts)) < count_nodes x).
Proof.
  rewrite xml_to_tree_listing. cbn [fst snd]. split; [|split; [reflexivity|split]].
  - induction (elements_before (preorder x 0)) as [|dn l IH]; cbn [map];
      constructor; [|exact IH].
    split; [reflexivity|]. unfold line_at. rewrite tree_line_blanks_any. lia.
  - intros Hall.
    rewrite elements_before_all by (now rewrite only_elements_preorder).
    split; [reflexivity|].
    now rewrite List.length_map, preorder_length.
  - intros Hall. rewrite List.length_map, <- (preorder_length x 0).
    apply elements_before_short. now rewrite only_elements_preorder.
Qed.

Lemma xml_to_tree_any_level_witness :
  all_elements Sample.config = true
  /\ List.length (fst (xml_to_tree Sample.config (-3) false true)) = 4
  /\ snd (xml_to_tree Sample.config (-3) false true) = Exhausted.
Proof.
  destruct (xml_to_tree_any_level Sample.config (-3) false true)
    as (_ & E & H & _).
  destruct (H eq_refl) as (_ & L).
  split; [reflexivity|]. split; [exact L | exact E].
Defined.

(** The pre-order listing of a subtree is a block of that of the tree. *)
Lemma preorder_block (p : list nat) :
  forall x e dist,
    subtree_at x p = Some e ->
    exists pre post,
      preorder x dist
      = (pre ++ preorder e (dist + List.length p) ++ post)%list.
Proof.
  induction p as [|i p IH]; intros x e dist H.
  - injection H as <-. exists [], []. cbn [List.length app].
    now rewrite Nat.add_0_r, List.app_nil_r.
  - cbn [subtree_at] in H.
    destruct (nth_error (getchildren x) i) as [ch|] eqn:Ei; [|discriminate].
    destruct (List.nth_error_split _ _ Ei) as (l1 & l2 & El & _).
    destruct (IH ch e (S dist) H) as (pre & post & E).
    destruct x as [tg tx chs|k tx]; [|destruct l1; discriminate].
    cbn [getchildren] in El. subst chs.
    exists ((dist, Elem tg tx (l1 ++ ch :: l2))
            :: concat (map (fun c => preorder c (S dist)) l1) ++ pre)%list.
    exists (post ++ concat (map (fun c => preorder c (S dist)) l2))%list.
    cbn [preorder for_children]. rewrite List.map_app, List.concat_app.
    cbn [map concat]. rewrite E.
    replace (S dist + List.length p) with (dist + List.length (i :: p))
      by (cbn [List.length]; lia).
    cbn [app]. f_equal. now rewrite <- !List.app_assoc.
Qed.

Lemma only_elements_block (pre mid post : list (nat * Element)) :
  only_elements (pre ++ mid ++ post) = true -> only_elements mid = true.
Proof.
  rewrite !only_elements_app. intros H.
  apply andb_true_iff in H as [_ H]. now apply andb_true_iff in H as [H _].
Qed.

Lemma xml_to_tree_block (pns ts : bool) (p : list nat) (x e : Element) (lvl : Z) :
  all_elements x = true ->
  subtree_at x p = Some e ->
  all_elements e = true
  /\ exists pre post,
       fst (xml_to_tree x lvl pns ts)
       = (map (line_at lvl pns ts) pre
          ++ fst (xml_to_tree e (lvl + Z.of_nat (List.length p)) pns ts)
          ++ map (line_at lvl pns ts) post)%list
       /\ preorder x 0 = (pre ++ preorder e (List.length p) ++ post)%list.
Proof.
  intros Hall He.
  destruct (preorder_block p x e 0 He) as (pre & post & E).
  cbn [Nat.add] in E.
  pose proof (only_elements_preorder x 0) as Hx. rewrite Hall, E in Hx.
  pose proof (only_elements_block _ _ _ Hx) as Hm.
  split; [now rewrite only_elements_preorder in Hm|].
  exists pre, post. split; [|exact E].
  rewrite xml_to_tree_listing, xml_to_tree_map. cbn [fst].
  rewrite (elements_before_all (preorder e (List.length p)) Hm).
  rewrite elements_before_all by (now rewrite only_elements_preorder).
  now rewrite E, !List.map_app.
Qed.

(** X7.  In a tree of elements only, the listing of a subtree is a
    block of the listing of the whole tree: for the element at address
    [p], the lines the printer yields for it at level [lvl + length p]
    appear, in one piece, among the lines of the tree printed at level
    [lvl]; both listings run to their end. *)
Theorem xml_to_tree_subtree (x e : Element) (p : list nat) (lvl : Z)
    (pns ts : bool) :
  all_elements x = true ->
  subtree_at x p = Some e ->
  snd (xml_to_tree x lvl pns ts) = Exhausted
  /\ snd (xml_to_tree e (lvl + Z.of_nat (List.length p)) pns ts) = Exhausted
  /\ exists pre post,
       fst (xml_to_tree x lvl pns ts)
       = (pre ++ fst (xml_to_tree e (lvl + Z.of_nat (List.length p)) pns ts)
              ++ post)%list.
Proof.
  intros Hall He.
  destruct (xml_to_tree_block pns ts p x e lvl Hall He)
    as (Hall' & pre & post & E & _).
  split; [now rewrite xml_to_tree_listing, Hall|].
  split; [now rewrite xml_to_tree_listing, Hall'|].
  now exists (map (line_at lvl pns ts) pre), (map (line_at lvl pns ts) post).
Qed.

Lemma xml_to_tree_subtree_witness :
  all_elements Sample.config = true
  /\ subtree_at Sample.config [0; 0]
     = Some (Elem (Sample.qname "interface") (Some " lo0 ") [])
  /\ exists pre post,
       fst (xml_to_tree Sample.config 1 false true)
       = (pre ++ ["    |--Tag: interface    |  Text: lo0"] ++ post)%list.
Proof.
  split; [reflexivity|]. split; [reflexivity|].
  destruct (xml_to_tree_subtree Sample.config _ [0; 0] 1 false true
              eq_refl eq_refl) as (_ & _ & H).
  exact H.
Defined.

(** X8.  The printer and the ancestor walk agree: in a tree of elements
    only, printed from level one, the line of the element at address
    [p] is among the lines yielded and starts with as many units of two
    blanks as the walk from that element returns names. *)
Theorem line_indent_is_path_length (x e : Element) (p : list nat) (pns ts : bool) :
  all_elements x = true ->
  subtree_at x p = Some e ->
  exists pre post path,
    fst (xml_to_tree x 1 pns ts)
    = (pre ++ tree_line (1 + Z.of_nat (List.length p)) (tree_tag pns (tag e))
                        (tree_text ts e) :: post)%list
    /\ get_path_to_root (doc_of x) (List.length p) p pns = Some path
    /\ PyStr.leading_blanks
         (tree_line (1 + Z.of_nat (List.length p)) (tree_tag pns (tag e))
                    (tree_text ts e))
       = 2 * List.length path.
Proof.
  intros Hall He.
  destruct (xml_to_tree_block pns ts p x e 1%Z Hall He)
    as (Hall' & pre & post & E & _).
  destruct (get_path_to_root_entries (doc_of x) p pns
              (List.length p) (List.length p) (depth_is_address x p) (le_n _))
    as (path & Hp & HL & _).
  rewrite (xml_to_tree_map pns ts 1 e (List.length p)) in E. cbn [fst] in E.
  rewrite elements_before_all in E by (now rewrite only_elements_preorder).
  destruct e as [tg tx chs|k tx]; [|discriminate].
  cbn [preorder map] in E.
  eexists _, _, path. split; [exact E|]. split; [exact Hp|].
  rewrite tree_line_blanks_any, HL. lia.
Qed.

Lemma line_indent_is_path_length_witness :
  all_elements Sample.config = true
  /\ exists pre post path,
       fst (xml_to_tree Sample.config 1 false true)
       = (pre ++ tree_line 3 "interface" "lo0" :: post)%list
       /\ get_path_to_root (doc_of Sample.config) 2 [0; 0] false = Some path
       /\ PyStr.leading_blanks (tree_line 3 "interface" "lo0")
          = 2 * List.length path.
Proof.
  split; [reflexivity|].
  exact (line_indent_is_path_length Sample.config _ [0; 0] false true
           eq_refl eq_refl).
Defined.

(** ** The ancestor walk: the two flags, and parent and child *)

Lemma path_loop_flags {Node : Type} (d : Doc Node) (fuel : nat) :
  forall (anc : option Node) (acc : list string),
    path_loop d false fuel anc (map strip_ns acc)
    = option_map (map strip_ns) (path_loop d true fuel anc acc).
Proof.
  induction fuel as [|fuel IH]; intros [a|] acc; try reflexivity.
  cbn [path_loop]. rewrite <- IH. reflexivity.
Qed.

Lemma path_loop_tail {Node : Type} (d : Doc Node) (pns : bool) (fuel : nat) :
  forall (anc : option Node) (acc tail : list string),
    path_loop d pns fuel anc (acc ++ tail)
    = option_map (fun l => (l ++ tail)%list) (path_loop d pns fuel anc acc).
Proof.
  induction fuel as [|fuel IH]; intros [a|] acc tail; try reflexivity.
  cbn [path_loop]. rewrite <- IH. reflexivity.
Qed.

(** X10.  The path without namespaces is the path with namespaces, each name
    put through the substitution; in particular both walks return
    together and return lists of the same length. *)
Theorem get_path_to_root_flags {Node : Type} (d : Doc Node) (fuel : nat)
    (e : Node) :
  get_path_to_root d fuel e false
  = option_map (map strip_ns) (get_path_to_root d fuel e true).
Proof.
  unfold get_path_to_root. apply (path_loop_flags d fuel (getparent d e) []).
Qed.

(** X11.  The path of a child is the path of its parent followed by the name
    of the parent: the walk from the child takes one more iteration and
    returns when the walk from the parent does. *)
Theorem get_path_to_root_child {Node : Type} (d : Doc Node) (fuel : nat)
    (e p : Node) (pns : bool) :
  getparent d e = Some p ->
  get_path_to_root d (S fuel) e pns
  = option_map (fun l => (l ++ [path_name pns (node_tag d p)])%list)
               (get_path_to_root d fuel p pns).
Proof.
  intros H. unfold get_path_to_root. rewrite H. cbn [path_loop].
  apply (path_loop_tail d pns fuel (getparent d p) []).
Qed.

Lemma get_path_to_root_child_witness :
  getparent (doc_of Sample.config) [0; 0] = Some [0]
  /\ get_path_to_root (doc_of Sample.config) 1 [0] false = Some ["configure"]
  /\ get_path_to_root (doc_of Sample.config) 2 [0; 0] false
     = Some ["configure"; "router"].
Proof.
  split; [reflexivity|]. split; [reflexivity|].
  rewrite (get_path_to_root_child (doc_of Sample.config) 1 [0; 0] [0] false eq_refl).
  reflexivity.
Defined.

(** ** The fetcher: what it prints, what it returns, what it leaves alone *)

Section FetcherMore.

Context `{Platform}.

(** X12.  A transport fault passes through: when the session raises, the
    fetcher raises the same exception whatever the flags, prints
    nothing, and has sent its one request. *)
Theorem fetch_transport_fault (nfd : Manager) (f d : string) (rbt pprn : bool)
    (w : World) (e : exn) :
  answer nfd (rpc_log w) (request_for f d) = Raise e ->
  get_sros_elem_config nfd f d rbt pprn w
  = (Raise e,
     {| stdout := stdout w; fs := fs w;
        rpc_log := (rpc_log w ++ [request_for f d])%list |}).
Proof.
  intros Ha. unfold get_sros_elem_config, bind, get_config.
  unfold request_for in *.
  destruct (str_truthy f); cbv beta iota zeta; rewrite Ha; reflexivity.
Qed.

(** X13.  Without [pprn] the fetcher is silent: it returns what the parser
    makes of the payload (a root, no root, or the parser's exception),
    and the world differs only by the request it has logged. *)
Theorem fetch_quiet_world (nfd : Manager) (f d : string) (rbt : bool)
    (w : World) (reply : Reply) :
  answer nfd (rpc_log w) (request_for f d) = Return reply ->
  get_sros_elem_config nfd f d rbt false w
  = (fromstring rbt (data_xml reply),
     {| stdout := stdout w; fs := fs w;
        rpc_log := (rpc_log w ++ [request_for f d])%list |}).
Proof.
  intros Ha. unfold get_sros_elem_config, bind, get_config, lift, ret.
  unfold request_for in *.
  destruct (str_truthy f); cbv beta iota zeta; rewrite Ha; reflexivity.
Qed.

(** X14.  With [pprn] and a session that answers, the fetcher prints the
    banner and the payload and then raises the type error of the footer
    line; the parser is not reached, so the outcome is the same for
    every payload and every [remove_blank_text]. *)
Theorem fetch_pprn_world (nfd : Manager) (f d : string) (rbt : bool)
    (w : World) (reply : Reply) :
  answer nfd (rpc_log w) (request_for f d) = Return reply ->
  get_sros_elem_config nfd f d rbt true w
  = (Raise str_plus_int,
     {| stdout :=
          (stdout w
           ++ ("====================" ++ " Retrieved SROS XML config "
               ++ "====================") ++ PyStr.chr PyStr.LF)
          ++ data_xml reply ++ PyStr.chr PyStr.LF;
        fs := fs w;
        rpc_log := (rpc_log w ++ [request_for f d])%list |}).
Proof.
  intros Ha. unfold get_sros_elem_config, bind, get_config, lift, ret.
  unfold request_for in *.
  destruct (str_truthy f); cbv beta iota zeta; rewrite Ha; reflexivity.
Qed.

End FetcherMore.

(** ** The filter loader: success, and loading then fetching *)

Ltac unfold_io :=
  unfold bind, ret, raise, lift, print, print_end, path_exists, access_r,
    open_file, read_file, try_except.

Section LoaderMore.

Context `{Platform}.

(** The loader on a path that is there and readable. *)
Lemma load_xml_filter_readable (fname fdir : string) (w : World) (f : File) :
  fs w (abspath (fdir ++ "/" ++ fname ++ ".xml")) = Some f ->
  readable f = true ->
  load_xml_filter fname fdir w
  = match open_fault f with
    | Some e => (Raise e, w)
    | None =>
        (match read_fault f with
         | Some e => Raise e
         | None => Return (universal_newlines (contents f))
         end,
         {| stdout := (stdout w ++ "fh type: " ++ "")
                      ++ "<class '_io.TextIOWrapper'>" ++ PyStr.chr PyStr.LF;
            fs := fs w;
            rpc_log := rpc_log w |})
    end.
Proof.
  intros Hf Hr. unfold load_xml_filter. unfold_io.
  cbv beta iota zeta. rewrite Hf. cbv beta iota. rewrite Hf, Hr.
  cbv beta iota. rewrite Hf.
  destruct (open_fault f) as [e|]; [reflexivity|].
  cbv beta iota. cbn [fs]. rewrite Hf.
  now destruct (read_fault f).
Qed.

Lemma load_xml_filter_fails (fname fdir : string) (w : World) :
  filter_unavailable w fname fdir ->
  load_xml_filter fname fdir w
  = (Raise (ValueError ("Please directory " ++ fdir
                        ++ " exist and intended filter present in the directory.")),
     {| stdout := stdout w ++ ("Can't load filter " ++ fname) ++ PyStr.chr PyStr.LF;
        fs := fs w;
        rpc_log := rpc_log w |}).
Proof.
  intros Hu. unfold filter_unavailable in Hu.
  unfold load_xml_filter. unfold_io.
  destruct (fs w (abspath (fdir ++ "/" ++ fname ++ ".xml"))) as [f|] eqn:E;
    cbv beta iota; [rewrite E, Hu|]; reflexivity.
Qed.

(** The loader never writes and never sends: in every case the file
    system and the log of requests are as before. *)
Lemma load_xml_filter_frame (fname fdir : string) (w : World) :
  fs (snd (load_xml_filter fname fdir w)) = fs w
  /\ rpc_log (snd (load_xml_filter fname fdir w)) = rpc_log w.
Proof.
  destruct (fs w (abspath (fdir ++ "/" ++ fname ++ ".xml"))) as [f|] eqn:Hf.
  - destruct (readable f) eqn:Hr.
    + rewrite (load_xml_filter_readable fname fdir w f Hf Hr).
      now destruct (open_fault f).
    + rewrite load_xml_filter_fails; [now split|].
      unfold filter_unavailable. now rewrite Hf.
  - rewrite load_xml_filter_fails; [now split|].
    unfold filter_unavailable. now rewrite Hf.
Qed.

(** X15.  When [<fdir>/<fname>.xml] is there and readable: if it cannot
    be opened as a file (a directory) the loader raises what [open]
    raises and prints nothing; otherwise it prints the type of the file
    object and returns the text read in text mode, that is the stored
    text with CR LF and CR turned into LF, or raises what the reading
    raises; the file system and the session are left alone. *)
Theorem load_xml_filter_available (fname fdir : string) (w : World) (f : File) :
  fs w (abspath (fdir ++ "/" ++ fname ++ ".xml")) = Some f ->
  readable f = true ->
  load_xml_filter fname fdir w
  = match open_fault f with
    | Some e => (Raise e, w)
    | None =>
        (match read_fault f with
         | Some e => Raise e
         | None => Return (universal_newlines (contents f))
         end,
         {| stdout := (stdout w ++ "fh type: " ++ "")
                      ++ "<class '_io.TextIOWrapper'>" ++ PyStr.chr PyStr.LF;
            fs := fs w;
            rpc_log := rpc_log w |})
    end.
Proof. apply load_xml_filter_readable. Qed.

(** X16.  Loading a filter and fetching with it.  A request is sent
    only when the loader returns a text: a missing or unreadable file,
    a directory, a file that cannot be decoded send nothing.  The one
    request sent carries the text as it was read (line ends
    translated), and an empty text makes the fetcher ask for the whole
    configuration with its built-in filter. *)
Theorem load_then_fetch (nfd : Manager) (fname fdir d : string)
    (rbt pprn : bool) (w : World) :
  let run := bind (load_xml_filter fname fdir)
                  (fun xml_filter =>
                     get_sros_elem_config nfd xml_filter d rbt pprn) in
  (filter_unavailable w fname fdir ->
   rpc_log (snd (run w)) = rpc_log w
   /\ exists e, fst (run w) = Raise e /\ exn_class e = "ValueError")
  /\ (forall f,
         fs w (abspath (fdir ++ "/" ++ fname ++ ".xml")) = Some f ->
         readable f = true ->
         match read_text f with
         | Raise e => rpc_log (snd (run w)) = rpc_log w /\ fst (run w) = Raise e
         | Return text =>
             rpc_log (snd (run w)) = (rpc_log w ++ [request_for text d])%list
             /\ (text = "" ->
                 rpc_log (snd (run w))
                 = (rpc_log w
                    ++ [ {| rpc_source := d;
                            rpc_filter := ("subtree", def_xml_filter) |} ])%list)
         end).
Proof.
  cbv zeta. split.
  - intros Hu.
    assert (E : bind (load_xml_filter fname fdir)
                  (fun xml_filter => get_sros_elem_config nfd xml_filter d rbt pprn) w
                = (Raise (ValueError
                            ("Please directory " ++ fdir
                             ++ " exist and intended filter present in the directory.")),
                   snd (load_xml_filter fname fdir w))).
    { unfold bind. now rewrite (load_xml_filter_fails fname fdir w Hu). }
    rewrite E, (load_xml_filter_fails fname fdir w Hu).
    split; [reflexivity|]. eexists. split; reflexivity.
  - intros f Hf Hr. unfold read_text, bind.
    rewrite (load_xml_filter_readable fname fdir w f Hf Hr).
    destruct (open_fault f) as [e|]; [now split|].
    destruct (read_fault f) as [e|]; [now split|].
    rewrite fetch_log. cbn [rpc_log snd]. split; [reflexivity|].
    intros E'. now rewrite E'.
Qed.

End LoaderMore.

Lemma load_xml_filter_available_witness :
  load_xml_filter (H := Sample.stub_platform) "interface" default_fdir
    (Lab.world_with "/home/user/sros_nf_filters/interface.xml"
       ("<x>" ++ String CR (String PyStr.LF "</x>")))
  = (Return ("<x>" ++ String PyStr.LF "</x>"),
     {| stdout := "fh type: <class '_io.TextIOWrapper'>" ++ PyStr.chr PyStr.LF;
        fs := fs (Lab.world_with "/home/user/sros_nf_filters/interface.xml"
                    ("<x>" ++ String CR (String PyStr.LF "</x>")));
        rpc_log := [] |})
  /\ load_xml_filter (H := Sample.stub_platform) "interface" default_fdir
       (Lab.world_of "/home/user/sros_nf_filters/interface.xml"
          (Lab.directory "/home/user/sros_nf_filters/interface.xml"))
     = (Raise (Exn "IsADirectoryError"
                 "[Errno 21] Is a directory: '/home/user/sros_nf_filters/interface.xml'"),
        Lab.world_of "/home/user/sros_nf_filters/interface.xml"
          (Lab.directory "/home/user/sros_nf_filters/interface.xml")).
Proof.
  split.
  - exact (load_xml_filter_available (H := Sample.stub_platform)
             "interface" default_fdir
             (Lab.world_with "/home/user/sros_nf_filters/interface.xml"
                ("<x>" ++ String CR (String PyStr.LF "</x>")))
             (Lab.text_file ("<x>" ++ String CR (String PyStr.LF "</x>")))
             eq_refl eq_refl).
  - exact (load_xml_filter_available (H := Sample.stub_platform)
             "interface" default_fdir
             (Lab.world_of "/home/user/sros_nf_filters/interface.xml"
                (Lab.directory "/home/user/sros_nf_filters/interface.xml"))
             (Lab.directory "/home/user/sros_nf_filters/interface.xml")
             eq_refl eq_refl).
Defined.

Lemma load_then_fetch_witness :
  rpc_log (snd (bind (load_xml_filter (H := Sample.stub_platform) "all" default_fdir)
                     (fun xml_filter =>
                        get_sros_elem_config (H := Sample.stub_platform)
                          (Sample.session Sample.payload) xml_filter
                          default_source false false)
                     (Lab.world_with "/home/user/sros_nf_filters/all.xml" "")))
  = [ {| rpc_source := "running"; rpc_filter := ("subtree", def_xml_filter) |} ]
  /\ rpc_log (snd (bind (load_xml_filter (H := Sample.stub_platform)
                           "none" default_fdir)
                        (fun xml_filter =>
                           get_sros_elem_config (H := Sample.stub_platform)
                             (Sample.session Sample.payload) xml_filter
                             default_source false false)
                        Sample.empty_world))
     = [].
Proof.
  destruct (load_then_fetch (H := Sample.stub_platform)
              (Sample.session Sample.payload) "all" default_fdir default_source
              false false
              (Lab.world_with "/home/user/sros_nf_filters/all.xml" ""))
    as [_ Hok].
  destruct (load_then_fetch (H := Sample.stub_platform)
              (Sample.session Sample.payload) "none" default_fdir default_source
              false false Sample.empty_world)
    as [Hno _].
  split.
  - destruct (Hok (Lab.text_file "") eq_refl eq_refl) as [_ E].
    exact (E eq_refl).
  - destruct (Hno I) as [E _]. exact E.
Defined.

Lemma fetch_transport_fault_witness :
  get_sros_elem_config (H := Sample.stub_platform) Lab.down_session
    "<interface/>" "candidate" false true Sample.empty_world
  = (Raise Lab.down,
     {| stdout := ""; fs := fs Sample.empty_world;
        rpc_log := [request_for "<interface/>" "candidate"] |}).
Proof.
  exact (fetch_transport_fault (H := Sample.stub_platform) Lab.down_session
           "<interface/>" "candidate" false true Sample.empty_world Lab.down
           eq_refl).
Defined.

Lemma fetch_quiet_world_witness :
  get_sros_elem_config (H := Sample.stub_platform) (Sample.session Sample.payload)
    "" default_source false false Sample.empty_world
  = (Return (Some Sample.parsed_payload),
     {| stdout := ""; fs := fs Sample.empty_world;
        rpc_log := [request_for "" default_source] |}).
Proof.
  exact (fetch_quiet_world (H := Sample.stub_platform)
           (Sample.session Sample.payload) "" default_source false
           Sample.empty_world {| data_xml := Sample.payload |} eq_refl).
Defined.

Lemma fetch_pprn_world_witness :
  fst (get_sros_elem_config (H := Sample.stub_platform) (Sample.session "<a><b></a>")
         "" default_source true true Sample.empty_world)
  = Raise str_plus_int.
Proof.
  rewrite (fetch_pprn_world (H := Sample.stub_platform)
             (Sample.session "<a><b></a>") "" default_source true
             Sample.empty_world {| data_xml := "<a><b></a>" |} eq_refl).
  reflexivity.
Defined.

(** ** The JSON loader, the template helper and the Jinja helper *)

Lemma append_nil (s : string) : s ++ "" = s.
Proof. induction s as [|c s IH]; cbn; congruence. Qed.

(** [os.path.exists(p) and os.access(p, os.R_OK)] in a world. *)
Lemma access_steps `{Platform} {A : Type} (p : string) (w : World)
    (k : bool -> M A) :
  bind (path_exists p)
       (fun ex => bind (if ex then access_r p else ret false) k) w
  = k (match fs w p with Some f => readable f | None => false end) w.
Proof.
  unfold_io. destruct (fs w p) as [f|] eqn:E; cbv beta iota; [|reflexivity].
  now rewrite E.
Qed.

Section Helpers.

Context `{Platform} `{Toolkit}.

(** X18.  A file that cannot be read: [load_json_data] prints the name it
    was given and raises a [ValueError] whose message is the same for
    every file. *)
Theorem load_json_data_unavailable (file_name : string) (w : World) :
  match fs w (abspath file_name) with
  | Some f => readable f = false
  | None => True
  end ->
  load_json_data file_name w
  = (Raise (ValueError "Please provide valid file name and/or path."),
     {| stdout := stdout w ++ ("Can't access file " ++ file_name)
                  ++ PyStr.chr PyStr.LF;
        fs := fs w;
        rpc_log := rpc_log w |}).
Proof.
  intros Hu. unfold load_json_data. cbv zeta. rewrite access_steps.
  destruct (fs w (abspath file_name)) as [f|]; [rewrite Hu|]; reflexivity.
Qed.

(** X19.  A readable file that the decoder rejects: the decoder's exception
    is raised again, unchanged; a [JSONDecodeError] is first reported
    in one line on the standard output, any other exception passes in
    silence.  The decoder is given the text read in text mode. *)
Theorem load_json_data_rejected (file_name : string) (w : World) (f : File)
    (text : string) (de : exn) :
  fs w (abspath file_name) = Some f ->
  readable f = true ->
  read_text f = Return text ->
  json_load text = Raise de ->
  load_json_data file_name w
  = (Raise de,
     if String.eqb (exn_class de) "JSONDecodeError"
     then {| stdout := stdout w ++ ("JSON format decode error." ++ exn_msg de)
                       ++ PyStr.chr PyStr.LF;
             fs := fs w;
             rpc_log := rpc_log w |}
     else w).
Proof.
  intros Hf Hr Ht Hj. unfold load_json_data. cbv zeta.
  rewrite access_steps, Hf, Hr. unfold read_text in Ht.
  unfold_io. rewrite Hf.
  destruct (open_fault f); [discriminate|]. cbv beta iota. rewrite Hf.
  destruct (read_fault f); [discriminate|]. injection Ht as <-.
  cbv beta iota. rewrite Hj.
  now destruct (String.eqb (exn_class de) "JSONDecodeError").
Qed.

(** X20.  A readable file that the decoder accepts: the data decoded from
    the text read in text mode are returned and nothing else happens,
    nothing is printed. *)
Theorem load_json_data_accepted (file_name : string) (w : World) (f : File)
    (text : string) (data : Json) :
  fs w (abspath file_name) = Some f ->
  readable f = true ->
  read_text f = Return text ->
  json_load text = Return data ->
  load_json_data file_name w = (Return data, w).
Proof.
  intros Hf Hr Ht Hj. unfold load_json_data. cbv zeta.
  rewrite access_steps, Hf, Hr. unfold read_text in Ht.
  unfold_io. rewrite Hf.
  destruct (open_fault f); [discriminate|]. cbv beta iota. rewrite Hf.
  destruct (read_fault f); [discriminate|]. injection Ht as <-.
  cbv beta iota. now rewrite Hj.
Qed.

(** X21.  A template that cannot be read: [apply_template] prints nothing and
    raises a [ValueError] whose message ends with the absolute path it
    looked for. *)
Theorem apply_template_unavailable (template cli_output : string) (debug : bool)
    (w : World) :
  match fs w (abspath template) with
  | Some f => readable f = false
  | None => True
  end ->
  let e := ValueError ("Incorrect template file name: " ++ abspath template) in
  apply_template template cli_output debug w = (Raise e, w)
  /\ names e (abspath template) = true.
Proof.
  intros Hu. cbv zeta. split.
  - unfold apply_template. cbv zeta. rewrite access_steps.
    destruct (fs w (abspath template)) as [f|]; [rewrite Hu|]; reflexivity.
  - unfold names, ValueError. cbn [exn_msg].
    rewrite <- (append_nil (abspath template)) at 2.
    apply contains_middle.
Qed.

(** X22.  [debug] only prints: with and without it [apply_template] returns
    the same table or raises the same exception, and the two worlds
    differ only by the printed table. *)
Theorem apply_template_debug (template cli_output : string) (w : World) :
  let quiet := apply_template template cli_output false w in
  let loud := apply_template template cli_output true w in
  fst loud = fst quiet
  /\ fs (snd loud) = fs (snd quiet)
  /\ rpc_log (snd loud) = rpc_log (snd quiet)
  /\ stdout (snd loud)
     = match fst quiet with
       | Return cli_data =>
           stdout (snd quiet) ++ table_str cli_data ++ PyStr.chr PyStr.LF
       | Raise _ => stdout (snd quiet)
       end.
Proof.
  cbv zeta. unfold apply_template. cbv zeta. rewrite !access_steps.
  destruct (fs w (abspath template)) as [f|] eqn:Hf; [|now repeat split].
  destruct (readable f); [|now repeat split].
  unfold_io. rewrite Hf.
  destruct (open_fault f); [now repeat split|]. cbv beta iota. rewrite Hf.
  destruct (read_fault f); [now repeat split|]. cbv beta iota.
  destruct (textfsm_new (universal_newlines (contents f))) as [t|e];
    [|now repeat split].
  destruct (parse_text t cli_output) as [data|e]; now repeat split.
Qed.

(** X23.  [load_j2_env] never raises and never prints: it returns the
    environment of a directory that is there and readable, and [None]
    for any other path. *)
Theorem load_j2_env_result (path_to_templ : string) (w : World) :
  load_j2_env path_to_templ w
  = (Return (match fs w path_to_templ with
             | Some f =>
                 if readable f
                 then Some {| searchpath := path_to_templ;
                              followlinks := true;
                              strict_undefined := true |}
                 else None
             | None => None
             end),
     w).
Proof.
  unfold load_j2_env. rewrite access_steps.
  destruct (fs w path_to_templ) as [f|]; [destruct (readable f)|]; reflexivity.
Qed.

End Helpers.

Lemma load_json_data_unavailable_witness :
  load_json_data (H := Sample.stub_platform) (H0 := Lab.stub_toolkit)
    "params.json" Sample.empty_world
  = (Raise (ValueError "Please provide valid file name and/or path."),
     {| stdout := "Can't access file params.json" ++ PyStr.chr PyStr.LF;
        fs := fs Sample.empty_world;
        rpc_log := [] |}).
Proof.
  exact (load_json_data_unavailable (H := Sample.stub_platform)
           (H0 := Lab.stub_toolkit) "params.json" Sample.empty_world I).
Defined.

Lemma load_json_data_rejected_witness :
  fst (load_json_data (H := Sample.stub_platform) (H0 := Lab.stub_toolkit)
         "params.json" (Lab.world_with "/home/user/params.json" "{"))
  = Raise (Exn "JSONDecodeError" "Expecting value: line 1 column 1 (char 0)").
Proof.
  rewrite (load_json_data_rejected (H := Sample.stub_platform)
             (H0 := Lab.stub_toolkit) "params.json"
             (Lab.world_with "/home/user/params.json" "{")
             (Lab.text_file "{") "{"
             (Exn "JSONDecodeError" "Expecting value: line 1 column 1 (char 0)")
             eq_refl eq_refl eq_refl eq_refl).
  reflexivity.
Defined.

Lemma load_json_data_accepted_witness :
  load_json_data (H := Sample.stub_platform) (H0 := Lab.stub_toolkit)
    "params.json" (Lab.world_with "/home/user/params.json" "{}")
  = (Return "{}", Lab.world_with "/home/user/params.json" "{}").
Proof.
  exact (load_json_data_accepted (H := Sample.stub_platform)
           (H0 := Lab.stub_toolkit) "params.json"
           (Lab.world_with "/home/user/params.json" "{}")
           (Lab.text_file "{}") "{}" "{}"
           eq_refl eq_refl eq_refl eq_refl).
Defined.

Lemma apply_template_unavailable_witness :
  fst (apply_template (H := Sample.stub_platform) (H0 := Lab.stub_toolkit)
         "show.tpl" "output" false Sample.empty_world)
  = Raise (ValueError "Incorrect template file name: /home/user/show.tpl").
Proof.
  destruct (apply_template_unavailable (H := Sample.stub_platform)
              (H0 := Lab.stub_toolkit) "show.tpl" "output" false
              Sample.empty_world I) as [E _].
  rewrite E. reflexivity.
Defined.

(** ** Logging *)

Lemma set_logger_same (log : string) (l : Logger) (reg : Logging) :
  set_logger log l reg log = l.
Proof. unfold set_logger. now rewrite String.eqb_refl. Qed.

Lemma set_logger_other (log n : string) (l : Logger) (reg : Logging) :
  n <> log -> set_logger log l reg n = reg n.
Proof.
  intros Hn. unfold set_logger. apply String.eqb_neq in Hn. now rewrite Hn.
Qed.

Lemma enable_logging_ok (opened : string -> option exn)
    (name log_file : string) (level : Z) (reg : Logging) :
  opened log_file = None ->
  fst (enable_logging opened name log_file level reg) = Return (getLogger name)
  /\ snd (enable_logging opened name log_file level reg) (getLogger name)
     = {| l_level := level;
          l_handlers :=
            l_handlers (reg (getLogger name))
            ++ [ {| h_filename := log_file; h_encoding := "utf-8";
                    h_level := level;
                    h_formatter :=
                      Some {| fmt := "[{asctime} {levelname:<8} [{name}:{filename:<10}:{lineno}] {message}";
                              datefmt := "%d/%m/%Y %H:%M:%S";
                              style := "{" |} |} ] |}
  /\ forall other, getLogger other <> getLogger name ->
       snd (enable_logging opened name log_file level reg) (getLogger other)
       = reg (getLogger other).
Proof.
  intros Ho. unfold enable_logging. cbv zeta. rewrite Ho. cbn [fst snd].
  split; [reflexivity|]. split.
  - now rewrite !set_logger_same.
  - intros other Hn. now rewrite !set_logger_other.
Qed.

(** X24.  A call that can open its file returns the logger that the
    name denotes, sets its level, and adds one handler for the file, at
    that level and with the format of the module, after the handlers
    the logger had; the logger of any name that denotes another logger
    is left as it was.  The names [""] and [root] denote one logger,
    the root. *)
Theorem enable_logging_adds_handler (opened : string -> option exn)
    (name log_file : string) (level : Z) (reg : Logging) :
  opened log_file = None ->
  fst (enable_logging opened name log_file level reg) = Return (getLogger name)
  /\ snd (enable_logging opened name log_file level reg) (getLogger name)
     = {| l_level := level;
          l_handlers :=
            l_handlers (reg (getLogger name))
            ++ [ {| h_filename := log_file; h_encoding := "utf-8";
                    h_level := level;
                    h_formatter :=
                      Some {| fmt := "[{asctime} {levelname:<8} [{name}:{filename:<10}:{lineno}] {message}";
                              datefmt := "%d/%m/%Y %H:%M:%S";
                              style := "{" |} |} ] |}
  /\ (forall other, getLogger other <> getLogger name ->
        snd (enable_logging opened name log_file level reg) (getLogger other)
        = reg (getLogger other))
  /\ getLogger "" = getLogger "root".
Proof.
  intros Ho. destruct (enable_logging_ok opened name log_file level reg Ho)
    as (E1 & E2 & E3).
  repeat split; assumption.
Qed.

(** X25.  Handlers pile up: a second call for the same name, even for
    the same file, keeps the handler of the first and adds its own, so
    the logger then has two handlers more than before; the level of the
    logger is that of the last call, and each handler keeps the level
    of its own call. *)
Theorem enable_logging_twice (opened : string -> option exn)
    (name file1 file2 : string) (level1 level2 : Z) (reg : Logging) :
  opened file1 = None -> opened file2 = None ->
  let reg1 := snd (enable_logging opened name file1 level1 reg) in
  let reg2 := snd (enable_logging opened name file2 level2 reg1) in
  let log := getLogger name in
  l_level (reg2 log) = level2
  /\ List.length (l_handlers (reg2 log)) = 2 + List.length (l_handlers (reg log))
  /\ map h_filename (l_handlers (reg2 log))
     = (map h_filename (l_handlers (reg log)) ++ [file1; file2])%list
  /\ map h_level (l_handlers (reg2 log))
     = (map h_level (l_handlers (reg log)) ++ [level1; level2])%list.
Proof.
  intros H1 H2. cbv zeta.
  destruct (enable_logging_ok opened name file1 level1 reg H1) as (_ & E1 & _).
  destruct (enable_logging_ok opened name file2 level2
              (snd (enable_logging opened name file1 level1 reg)) H2)
    as (_ & E2 & _).
  rewrite E2, E1. cbn [l_level l_handlers].
  rewrite <- List.app_assoc. cbn [app].
  rewrite List.length_app, !List.map_app. cbn [List.length map h_filename h_level].
  repeat split. lia.
Qed.

(** X26.  A call that cannot open its file raises what the opening
    raised, after it has set the level of the logger: the level has
    changed, the handlers have not, and the logger of any name that
    denotes another logger is as it was. *)
Theorem enable_logging_unopened (opened : string -> option exn)
    (name log_file : string) (level : Z) (reg : Logging) (e : exn) :
  opened log_file = Some e ->
  fst (enable_logging opened name log_file level reg) = Raise e
  /\ snd (enable_logging opened name log_file level reg) (getLogger name)
     = {| l_level := level; l_handlers := l_handlers (reg (getLogger name)) |}
  /\ forall other, getLogger other <> getLogger name ->
       snd (enable_logging opened name log_file level reg) (getLogger other)
       = reg (getLogger other).
Proof.
  intros Ho. unfold enable_logging. cbv zeta. rewrite Ho. cbn [fst snd].
  split; [reflexivity|]. split.
  - now rewrite set_logger_same.
  - intros other Hn. now rewrite set_logger_other.
Qed.

Lemma enable_logging_adds_handler_witness :
  fst (enable_logging (fun _ => None) "" "ndev.log" WARNING Lab.no_loggers)
  = Return "root"
  /\ map h_filename
       (l_handlers (snd (enable_logging (fun _ => None) "" "ndev.log" WARNING
                           Lab.no_loggers) "root"))
     = ["ndev.log"]
  /\ snd (enable_logging (fun _ => None) "" "ndev.log" WARNING Lab.no_loggers)
       "ndev"
     = Lab.no_loggers "ndev".
Proof.
  destruct (enable_logging_adds_handler (fun _ => None) "" "ndev.log" WARNING
              Lab.no_loggers eq_refl) as (E1 & E2 & E3 & _).
  split; [exact E1|]. split.
  - change "root" with (getLogger "") at 1. rewrite E2. reflexivity.
  - apply (E3 "ndev"). discriminate.
Defined.

Lemma enable_logging_twice_witness :
  map h_filename
    (l_handlers
       (snd (enable_logging (fun _ => None) "root" "ndev.log" 10
               (snd (enable_logging (fun _ => None) "" "ndev.log" WARNING
                       Lab.no_loggers))) "root"))
  = ["ndev.log"; "ndev.log"].
Proof.
  destruct (enable_logging_twice (fun _ => None) "" "ndev.log" "ndev.log"
              WARNING 10 Lab.no_loggers eq_refl eq_refl) as (_ & _ & E & _).
  exact E.
Defined.

Lemma enable_logging_unopened_witness :
  fst (enable_logging (fun _ => Some (Exn "FileNotFoundError" "/no/dir/ndev.log"))
         "ndev" "/no/dir/ndev.log" 10 Lab.no_loggers)
  = Raise (Exn "FileNotFoundError" "/no/dir/ndev.log")
  /\ snd (enable_logging
            (fun _ => Some (Exn "FileNotFoundError" "/no/dir/ndev.log"))
            "ndev" "/no/dir/ndev.log" 10 Lab.no_loggers) "ndev"
     = {| l_level := 10; l_handlers := [] |}.
Proof.
  destruct (enable_logging_unopened
              (fun _ => Some (Exn "FileNotFoundError" "/no/dir/ndev.log"))
              "ndev" "/no/dir/ndev.log" 10 Lab.no_loggers
              (Exn "FileNotFoundError" "/no/dir/ndev.log") eq_refl)
    as (E1 & E2 & _).
  split; [exact E1 | exact E2].
Defined.

(** ** The run-time decorator *)

Section Decorator.

Context `{Toolkit} {S A B : Type}.

Lemma timeit_returns (logger : string) (run_func : Func S A B) (args : A)
    (r r2 : RunWorld S) (b : B) :
  fn_call run_func args (snd (time_time r)) = (Return b, r2) ->
  fn_call (runtimeit_logger logger run_func) args r
  = (Return b,
     {| clock := clock r2;
        taken := Datatypes.S (taken r2);
        records :=
          records r2
          ++ [(logger,
               runtime_message (fn_name run_func)
                 (clock r2 (taken r2)) (clock r (taken r)))];
        program := program r2 |}).
Proof.
  intros Hc. cbn [fn_call runtimeit_logger]. unfold time_time at 1.
  unfold time_time in Hc. cbn [snd] in Hc. rewrite Hc. reflexivity.
Qed.

Lemma timeit_raises (logger : string) (run_func : Func S A B) (args : A)
    (r r2 : RunWorld S) (e : exn) :
  fn_call run_func args (snd (time_time r)) = (Raise e, r2) ->
  fn_call (runtimeit_logger logger run_func) args r = (Raise e, r2).
Proof.
  intros Hc. cbn [fn_call runtimeit_logger]. unfold time_time at 1.
  unfold time_time in Hc. cbn [snd] in Hc. now rewrite Hc.
Qed.

(** X27.  A decorated function that returns: it runs the function once, on
    the same arguments, right after the first reading of the clock; it
    returns what the function returns; and it hands the logger exactly
    one more record, which names the function and the time between the
    two readings. *)
Theorem runtimeit_returns (logger : string) (run_func : Func S A B) (args : A)
    (r r2 : RunWorld S) (b : B) :
  fn_call run_func args (snd (time_time r)) = (Return b, r2) ->
  fn_call (runtimeit_logger logger run_func) args r
  = (Return b,
     {| clock := clock r2;
        taken := Datatypes.S (taken r2);
        records :=
          records r2
          ++ [(logger,
               runtime_message (fn_name run_func)
                 (clock r2 (taken r2)) (clock r (taken r)))];
        program := program r2 |}).
Proof. apply timeit_returns. Qed.

(** X28.  A decorated function that raises: the exception of the function
    passes unchanged, the clock is not read again and nothing is
    logged, so a call that fails leaves no trace of its run time. *)
Theorem runtimeit_raises (logger : string) (run_func : Func S A B) (args : A)
    (r r2 : RunWorld S) (e : exn) :
  fn_call run_func args (snd (time_time r)) = (Raise e, r2) ->
  fn_call (runtimeit_logger logger run_func) args r = (Raise e, r2)
  /\ records (snd (fn_call (runtimeit_logger logger run_func) args r))
     = records r2
  /\ taken (snd (fn_call (runtimeit_logger logger run_func) args r)) = taken r2.
Proof.
  intros Hc. rewrite (timeit_raises logger run_func args r r2 e Hc).
  now repeat split.
Qed.

(** X29.  Decorating twice: the wrapper keeps the name of the function, so
    both records name the function itself; the inner record comes
    first, and the result is still that of the function. *)
Theorem runtimeit_twice (inner outer : string) (run_func : Func S A B) (args : A)
    (r r2 : RunWorld S) (b : B) :
  fn_call run_func args (snd (time_time (snd (time_time r)))) = (Return b, r2) ->
  let twice := runtimeit_logger outer (runtimeit_logger inner run_func) in
  fn_name twice = fn_name run_func
  /\ fst (fn_call twice args r) = Return b
  /\ exists t1 t2 t3 t4,
       records (snd (fn_call twice args r))
       = (records r2
          ++ [(inner, runtime_message (fn_name run_func) t1 t2);
              (outer, runtime_message (fn_name run_func) t3 t4)])%list.
Proof.
  intros Hc. cbv zeta. split; [reflexivity|].
  pose proof (timeit_returns inner run_func args (snd (time_time r)) r2 b Hc) as Hi.
  rewrite (timeit_returns outer (runtimeit_logger inner run_func) args r _ b Hi).
  cbn [fst snd records clock taken fn_name runtimeit_logger].
  split; [reflexivity|].
  do 4 eexists. rewrite <- List.app_assoc. reflexivity.
Qed.

End Decorator.

Lemma runtimeit_returns_witness :
  fn_call (runtimeit_logger (H := Lab.stub_toolkit) "ndev" Lab.work) tt
    Lab.start_world
  = (Return 0,
     @Build_RunWorld Lab.stub_toolkit nat (fun n => n) 2
       [("ndev", "Runtime of work: 1 seconds")] 1).
Proof.
  exact (runtimeit_returns (H := Lab.stub_toolkit) "ndev" Lab.work tt
           Lab.start_world _ 0 eq_refl).
Defined.

Lemma runtimeit_raises_witness :
  fn_call (runtimeit_logger (H := Lab.stub_toolkit) "ndev" Lab.broken) tt
    Lab.start_world
  = (Raise (Exn "RuntimeError" "boom"),
     @Build_RunWorld Lab.stub_toolkit nat (fun n => n) 1 [] 0).
Proof.
  destruct (runtimeit_raises (H := Lab.stub_toolkit) "ndev" Lab.broken tt
              Lab.start_world _ (Exn "RuntimeError" "boom") eq_refl) as [E _].
  exact E.
Defined.

Lemma runtimeit_twice_witness :
  fn_name (runtimeit_logger (H := Lab.stub_toolkit) "outer"
             (runtimeit_logger (H := Lab.stub_toolkit) "inner" Lab.work))
  = "work"
  /\ fst (fn_call (runtimeit_logger (H := Lab.stub_toolkit) "outer"
                     (runtimeit_logger (H := Lab.stub_toolkit) "inner" Lab.work))
            tt Lab.start_world)
     = Return 0.
Proof.
  destruct (runtimeit_twice (H := Lab.stub_toolkit) "inner" "outer" Lab.work tt
              Lab.start_world _ 0 eq_refl) as (E1 & E2 & _).
  split; [exact E1 | exact E2].
Defined.

Lemma get_path_to_root_in_tree_witness :
  subtree_at Sample.config [0; 0]
  = Some (Elem (Sample.qname "interface") (Some " lo0 ") [])
  /\ exists path,
       get_path_to_root (doc_of Sample.config) 2 [0; 0] true = Some path
       /\ List.length path = 2.
Proof.
  split; [reflexivity|].
  destruct (get_path_to_root_in_tree Sample.config _ [0; 0] true eq_refl)
    as (path & Hp & HL & _).
  exists path. split; [exact Hp | exact HL].
Defined.
